(** * The light domain: color modes, request normalisation and profiles

    A shallow embedding of [homeassistant/components/light/__init__.py].

    - Python [int] is [Z], Python [float] is the kernel's binary64 [float],
      [str] is [string], [None] is the [None] of [option].
    - A set of color modes is a [gset ColorMode]; the profile store
      ([Profiles.data], a [dict[str, Profile]]) is a [gmap string Profile].
    - A raised exception is the [Raise] branch of [result].
    - The functions of [homeassistant.util.color] and the validators of
      [homeassistant.helpers.config_validation] are not part of these
      sources: they are the fields of the interfaces [ColorUtil] and
      [ConfigValidation], and every statement holds for all of them. *)

From Stdlib Require Import ZArith Floats Bool.
From stdpp Require Import base decidable countable gmap strings list fin_sets.

#[local] Open Scope Z_scope.

(** ** Exceptions *)

Inductive exn :=
| vol_Error          (* voluptuous.Error *)
| vol_MultipleInvalid
| TypeError
| ValueError
| OverflowError
| KeyError
| ZeroDivisionError.

Inductive result (A : Type) :=
| Ok (a : A)
| Raise (e : exn).
Arguments Ok {A} a.
Arguments Raise {A} e.

(** Sequencing: an exception of the first statement skips the rest.
    [x ← r; k] is stdpp's notation for [mbind]. *)
#[global] Instance result_bind : MBind result := fun A B k r =>
  match r with
  | Ok a => k a
  | Raise e => Raise e
  end.

#[global] Instance result_ret : MRet result := fun A a => Ok a.

(** [o is not None] *)
Definition is_not_None {A} (o : option A) : bool :=
  match o with
  | Some _ => true
  | None => false
  end.

(** ** Feature bits (lines 46-62) *)

Definition LightEntityFeature_EFFECT : Z := 4.
Definition LightEntityFeature_FLASH : Z := 8.
Definition LightEntityFeature_TRANSITION : Z := 32.

Definition SUPPORT_BRIGHTNESS : Z := 1.
Definition SUPPORT_COLOR_TEMP : Z := 2.
Definition SUPPORT_EFFECT : Z := 4.
Definition SUPPORT_FLASH : Z := 8.
Definition SUPPORT_COLOR : Z := 16.
Definition SUPPORT_TRANSITION : Z := 32.
Definition SUPPORT_WHITE_VALUE : Z := 128.

(** Truth value of [features & bit] in a Python condition. *)
Definition has_feature (features bit : Z) : bool :=
  negb (Z.land features bit =? 0).

(** ** Color modes (lines 70-116) *)

Inductive ColorMode :=
| UNKNOWN
| ONOFF
| BRIGHTNESS
| COLOR_TEMP
| HS
| XY
| RGB
| RGBW
| RGBWW
| WHITE.

#[global] Instance ColorMode_eq_dec : EqDecision ColorMode.
Proof. solve_decision. Defined.

Definition ColorMode_to_nat (m : ColorMode) : nat :=
  match m with
  | UNKNOWN => 0 | ONOFF => 1 | BRIGHTNESS => 2 | COLOR_TEMP => 3 | HS => 4
  | XY => 5 | RGB => 6 | RGBW => 7 | RGBWW => 8 | WHITE => 9
  end%nat.

Definition ColorMode_of_nat (n : nat) : option ColorMode :=
  match n with
  | 0 => Some UNKNOWN | 1 => Some ONOFF | 2 => Some BRIGHTNESS
  | 3 => Some COLOR_TEMP | 4 => Some HS | 5 => Some XY | 6 => Some RGB
  | 7 => Some RGBW | 8 => Some RGBWW | 9 => Some WHITE | _ => None
  end%nat.

#[global] Instance ColorMode_countable : Countable ColorMode.
Proof.
  apply (inj_countable ColorMode_to_nat ColorMode_of_nat).
  intros []; reflexivity.
Defined.

Definition VALID_COLOR_MODES : gset ColorMode :=
  {[ ONOFF; BRIGHTNESS; COLOR_TEMP; HS; XY; RGB; RGBW; RGBWW; WHITE ]}.

Definition COLOR_MODES_BRIGHTNESS : gset ColorMode :=
  VALID_COLOR_MODES ∖ {[ ONOFF ]}.

Definition COLOR_MODES_COLOR : gset ColorMode :=
  {[ HS; RGB; RGBW; RGBWW; XY ]}.

(** [mode in s] *)
Definition mode_in (mode : ColorMode) (s : gset ColorMode) : bool :=
  bool_decide (mode ∈ s).

(** Truth value of a set, and of a set-or-None, in a Python condition. *)
Definition set_truthy (s : gset ColorMode) : bool :=
  negb (bool_decide (s = ∅)).

Definition truthy (color_modes : option (gset ColorMode)) : bool :=
  match color_modes with
  | None => false
  | Some s => set_truthy s
  end.

(** [any(mode in among for mode in s)] *)
Definition any_in (among s : gset ColorMode) : bool :=
  existsb (fun mode => mode_in mode among) (elements s).

(** lines 135-139 *)
Definition brightness_supported (color_modes : option (gset ColorMode)) : bool :=
  match color_modes with
  | None => false
  | Some s => if set_truthy s then any_in COLOR_MODES_BRIGHTNESS s else false
  end.

(** lines 142-146 *)
Definition color_supported (color_modes : option (gset ColorMode)) : bool :=
  match color_modes with
  | None => false
  | Some s => if set_truthy s then any_in COLOR_MODES_COLOR s else false
  end.

(** lines 149-153 *)
Definition color_temp_supported (color_modes : option (gset ColorMode)) : bool :=
  match color_modes with
  | None => false
  | Some s => if set_truthy s then mode_in COLOR_TEMP s else false
  end.

(** lines 119-132.  The argument is any iterable of modes; [set(color_modes)]
    is [list_to_set]. *)
Definition valid_supported_color_modes (color_modes : list ColorMode)
  : result (gset ColorMode) :=
  let color_modes : gset ColorMode := list_to_set color_modes in
  if negb (set_truthy color_modes)
     || mode_in UNKNOWN color_modes
     || (mode_in BRIGHTNESS color_modes && bool_decide (1 < size color_modes)%nat)
     || (mode_in ONOFF color_modes && bool_decide (1 < size color_modes)%nat)
     || (mode_in WHITE color_modes && negb (color_supported (Some color_modes)))
  then Raise vol_Error
  else Ok color_modes.

(** ** The light entity (lines 722-1000)

    The record holds what the entity's properties return when they are read:
    a subclass overrides the properties, the base class reads [_attr_*]. *)

Record LightEntity := {
  entity_id : string;
  is_on : bool;
  brightness : option Z;
  color_mode : option ColorMode;
  color_temp : option Z;
  hs_color : option (float * float);
  white_value : option Z;
  min_mireds : Z;
  max_mireds : Z;
  supported_color_modes : option (gset ColorMode);
  supported_features : Z;
}.

(** lines 967-990 *)
Definition _light_internal_supported_color_modes (self : LightEntity)
  : gset ColorMode :=
  match supported_color_modes self with
  | Some supported_color_modes => supported_color_modes
  | None =>
      let supported_features := supported_features self in
      let s : gset ColorMode := ∅ in
      let s := if has_feature supported_features SUPPORT_COLOR_TEMP
               then s ∪ {[ COLOR_TEMP ]} else s in
      let s := if has_feature supported_features SUPPORT_COLOR
               then s ∪ {[ HS ]} else s in
      let s := if has_feature supported_features SUPPORT_WHITE_VALUE
               then s ∪ {[ RGBW ]} else s in
      let s := if has_feature supported_features SUPPORT_BRIGHTNESS
                  && negb (set_truthy s)
               then {[ BRIGHTNESS ]} else s in
      if negb (set_truthy s) then {[ ONOFF ]} else s
  end.

(** lines 751-775 *)
Definition _light_internal_color_mode (self : LightEntity) : ColorMode :=
  match color_mode self with
  | Some color_mode => color_mode
  | None =>
      let supported := _light_internal_supported_color_modes self in
      if mode_in RGBW supported
         && is_not_None (white_value self)
         && is_not_None (hs_color self)
      then RGBW
      else if mode_in HS supported && is_not_None (hs_color self)
      then HS
      else if mode_in COLOR_TEMP supported && is_not_None (color_temp self)
      then COLOR_TEMP
      else if mode_in BRIGHTNESS supported && is_not_None (brightness self)
      then BRIGHTNESS
      else if mode_in ONOFF supported
      then ONOFF
      else UNKNOWN
  end.

(** ** Command parameters (lines 174-263)

    [params] is the dict of one service call.  The service schema
    ([LIGHT_TURN_ON_SCHEMA], unknown keys refused) fixes its keys and the type
    of the value under each key, so the dict is a record with one optional
    field per key, named after the key's constant: [ATTR_BRIGHTNESS params] is
    [params.get(ATTR_BRIGHTNESS)], and [None] says the key is absent. *)

Record Params := {
  ATTR_PROFILE : option string;
  ATTR_TRANSITION : option float;
  ATTR_BRIGHTNESS : option Z;
  ATTR_BRIGHTNESS_PCT : option float;
  ATTR_BRIGHTNESS_STEP : option Z;
  ATTR_BRIGHTNESS_STEP_PCT : option float;
  ATTR_COLOR_NAME : option string;
  ATTR_COLOR_TEMP : option Z;
  ATTR_KELVIN : option Z;
  ATTR_HS_COLOR : option (float * float);
  ATTR_RGB_COLOR : option (Z * Z * Z);
  ATTR_RGBW_COLOR : option (Z * Z * Z * Z);
  ATTR_RGBWW_COLOR : option (Z * Z * Z * Z * Z);
  ATTR_XY_COLOR : option (float * float);
  ATTR_WHITE : option Z;
  ATTR_WHITE_VALUE : option Z;
  ATTR_FLASH : option string;
  ATTR_EFFECT : option string;
}.

(** The empty dict. *)
Definition no_params : Params :=
  {| ATTR_PROFILE := None;
     ATTR_TRANSITION := None;
     ATTR_BRIGHTNESS := None;
     ATTR_BRIGHTNESS_PCT := None;
     ATTR_BRIGHTNESS_STEP := None;
     ATTR_BRIGHTNESS_STEP_PCT := None;
     ATTR_COLOR_NAME := None;
     ATTR_COLOR_TEMP := None;
     ATTR_KELVIN := None;
     ATTR_HS_COLOR := None;
     ATTR_RGB_COLOR := None;
     ATTR_RGBW_COLOR := None;
     ATTR_RGBWW_COLOR := None;
     ATTR_XY_COLOR := None;
     ATTR_WHITE := None;
     ATTR_WHITE_VALUE := None;
     ATTR_FLASH := None;
     ATTR_EFFECT := None |}.

(** [not params]: the dict holds no key. *)
Definition is_empty (params : Params) : bool :=
  negb (is_not_None (ATTR_PROFILE params)
        || is_not_None (ATTR_TRANSITION params)
        || is_not_None (ATTR_BRIGHTNESS params)
        || is_not_None (ATTR_BRIGHTNESS_PCT params)
        || is_not_None (ATTR_BRIGHTNESS_STEP params)
        || is_not_None (ATTR_BRIGHTNESS_STEP_PCT params)
        || is_not_None (ATTR_COLOR_NAME params)
        || is_not_None (ATTR_COLOR_TEMP params)
        || is_not_None (ATTR_KELVIN params)
        || is_not_None (ATTR_HS_COLOR params)
        || is_not_None (ATTR_RGB_COLOR params)
        || is_not_None (ATTR_RGBW_COLOR params)
        || is_not_None (ATTR_RGBWW_COLOR params)
        || is_not_None (ATTR_XY_COLOR params)
        || is_not_None (ATTR_WHITE params)
        || is_not_None (ATTR_WHITE_VALUE params)
        || is_not_None (ATTR_FLASH params)
        || is_not_None (ATTR_EFFECT params)).

(** [set_KEY v p] is the dict [p] with the entry under KEY replaced by [v]:
    [Some x] for [p[KEY] = x], [None] for [p.pop(KEY, None)]. *)
Definition set_PROFILE (v : option string) (p : Params) : Params :=
  {| ATTR_PROFILE := v; ATTR_TRANSITION := ATTR_TRANSITION p;
     ATTR_BRIGHTNESS := ATTR_BRIGHTNESS p;
     ATTR_BRIGHTNESS_PCT := ATTR_BRIGHTNESS_PCT p;
     ATTR_BRIGHTNESS_STEP := ATTR_BRIGHTNESS_STEP p;
     ATTR_BRIGHTNESS_STEP_PCT := ATTR_BRIGHTNESS_STEP_PCT p;
     ATTR_COLOR_NAME := ATTR_COLOR_NAME p;
     ATTR_COLOR_TEMP := ATTR_COLOR_TEMP p; ATTR_KELVIN := ATTR_KELVIN p;
     ATTR_HS_COLOR := ATTR_HS_COLOR p; ATTR_RGB_COLOR := ATTR_RGB_COLOR p;
     ATTR_RGBW_COLOR := ATTR_RGBW_COLOR p;
     ATTR_RGBWW_COLOR := ATTR_RGBWW_COLOR p; ATTR_XY_COLOR := ATTR_XY_COLOR p;
     ATTR_WHITE := ATTR_WHITE p; ATTR_WHITE_VALUE := ATTR_WHITE_VALUE p;
     ATTR_FLASH := ATTR_FLASH p; ATTR_EFFECT := ATTR_EFFECT p |}.

Definition set_TRANSITION (v : option float) (p : Params) : Params :=
  {| ATTR_PROFILE := ATTR_PROFILE p; ATTR_TRANSITION := v;
     ATTR_BRIGHTNESS := ATTR_BRIGHTNESS p;
     ATTR_BRIGHTNESS_PCT := ATTR_BRIGHTNESS_PCT p;
     ATTR_BRIGHTNESS_STEP := ATTR_BRIGHTNESS_STEP p;
     ATTR_BRIGHTNESS_STEP_PCT := ATTR_BRIGHTNESS_STEP_PCT p;
     ATTR_COLOR_NAME := ATTR_COLOR_NAME p;
     ATTR_COLOR_TEMP := ATTR_COLOR_TEMP p; ATTR_KELVIN := ATTR_KELVIN p;
     ATTR_HS_COLOR := ATTR_HS_COLOR p; ATTR_RGB_COLOR := ATTR_RGB_COLOR p;
     ATTR_RGBW_COLOR := ATTR_RGBW_COLOR p;
     ATTR_RGBWW_COLOR := ATTR_RGBWW_COLOR p; ATTR_XY_COLOR := ATTR_XY_COLOR p;
     ATTR_WHITE := ATTR_WHITE p; ATTR_WHITE_VALUE := ATTR_WHITE_VALUE p;
     ATTR_FLASH := ATTR_FLASH p; ATTR_EFFECT := ATTR_EFFECT p |}.

Definition set_BRIGHTNESS (v : option Z) (p : Params) : Params :=
  {| ATTR_PROFILE := ATTR_PROFILE p; ATTR_TRANSITION := ATTR_TRANSITION p;
     ATTR_BRIGHTNESS := v; ATTR_BRIGHTNESS_PCT := ATTR_BRIGHTNESS_PCT p;
     ATTR_BRIGHTNESS_STEP := ATTR_BRIGHTNESS_STEP p;
     ATTR_BRIGHTNESS_STEP_PCT := ATTR_BRIGHTNESS_STEP_PCT p;
     ATTR_COLOR_NAME := ATTR_COLOR_NAME p;
     ATTR_COLOR_TEMP := ATTR_COLOR_TEMP p; ATTR_KELVIN := ATTR_KELVIN p;
     ATTR_HS_COLOR := ATTR_HS_COLOR p; ATTR_RGB_COLOR := ATTR_RGB_COLOR p;
     ATTR_RGBW_COLOR := ATTR_RGBW_COLOR p;
     ATTR_RGBWW_COLOR := ATTR_RGBWW_COLOR p; ATTR_XY_COLOR := ATTR_XY_COLOR p;
     ATTR_WHITE := ATTR_WHITE p; ATTR_WHITE_VALUE := ATTR_WHITE_VALUE p;
     ATTR_FLASH := ATTR_FLASH p; ATTR_EFFECT := ATTR_EFFECT p |}.

Definition set_BRIGHTNESS_PCT (v : option float) (p : Params) : Params :=
  {| ATTR_PROFILE := ATTR_PROFILE p; ATTR_TRANSITION := ATTR_TRANSITION p;
     ATTR_BRIGHTNESS := ATTR_BRIGHTNESS p; ATTR_BRIGHTNESS_PCT := v;
     ATTR_BRIGHTNESS_STEP := ATTR_BRIGHTNESS_STEP p;
     ATTR_BRIGHTNESS_STEP_PCT := ATTR_BRIGHTNESS_STEP_PCT p;
     ATTR_COLOR_NAME := ATTR_COLOR_NAME p;
     ATTR_COLOR_TEMP := ATTR_COLOR_TEMP p; ATTR_KELVIN := ATTR_KELVIN p;
     ATTR_HS_COLOR := ATTR_HS_COLOR p; ATTR_RGB_COLOR := ATTR_RGB_COLOR p;
     ATTR_RGBW_COLOR := ATTR_RGBW_COLOR p;
     ATTR_RGBWW_COLOR := ATTR_RGBWW_COLOR p; ATTR_XY_COLOR := ATTR_XY_COLOR p;
     ATTR_WHITE := ATTR_WHITE p; ATTR_WHITE_VALUE := ATTR_WHITE_VALUE p;
     ATTR_FLASH := ATTR_FLASH p; ATTR_EFFECT := ATTR_EFFECT p |}.

Definition set_BRIGHTNESS_STEP (v : option Z) (p : Params) : Params :=
  {| ATTR_PROFILE := ATTR_PROFILE p; ATTR_TRANSITION := ATTR_TRANSITION p;
     ATTR_BRIGHTNESS := ATTR_BRIGHTNESS p;
     ATTR_BRIGHTNESS_PCT := ATTR_BRIGHTNESS_PCT p; ATTR_BRIGHTNESS_STEP := v;
     ATTR_BRIGHTNESS_STEP_PCT := ATTR_BRIGHTNESS_STEP_PCT p;
     ATTR_COLOR_NAME := ATTR_COLOR_NAME p;
     ATTR_COLOR_TEMP := ATTR_COLOR_TEMP p; ATTR_KELVIN := ATTR_KELVIN p;
     ATTR_HS_COLOR := ATTR_HS_COLOR p; ATTR_RGB_COLOR := ATTR_RGB_COLOR p;
     ATTR_RGBW_COLOR := ATTR_RGBW_COLOR p;
     ATTR_RGBWW_COLOR := ATTR_RGBWW_COLOR p; ATTR_XY_COLOR := ATTR_XY_COLOR p;
     ATTR_WHITE := ATTR_WHITE p; ATTR_WHITE_VALUE := ATTR_WHITE_VALUE p;
     ATTR_FLASH := ATTR_FLASH p; ATTR_EFFECT := ATTR_EFFECT p |}.

Definition set_BRIGHTNESS_STEP_PCT (v : option float) (p : Params) : Params :=
  {| ATTR_PROFILE := ATTR_PROFILE p; ATTR_TRANSITION := ATTR_TRANSITION p;
     ATTR_BRIGHTNESS := ATTR_BRIGHTNESS p;
     ATTR_BRIGHTNESS_PCT := ATTR_BRIGHTNESS_PCT p;
     ATTR_BRIGHTNESS_STEP := ATTR_BRIGHTNESS_STEP p;
     ATTR_BRIGHTNESS_STEP_PCT := v; ATTR_COLOR_NAME := ATTR_COLOR_NAME p;
     ATTR_COLOR_TEMP := ATTR_COLOR_TEMP p; ATTR_KELVIN := ATTR_KELVIN p;
     ATTR_HS_COLOR := ATTR_HS_COLOR p; ATTR_RGB_COLOR := ATTR_RGB_COLOR p;
     ATTR_RGBW_COLOR := ATTR_RGBW_COLOR p;
     ATTR_RGBWW_COLOR := ATTR_RGBWW_COLOR p; ATTR_XY_COLOR := ATTR_XY_COLOR p;
     ATTR_WHITE := ATTR_WHITE p; ATTR_WHITE_VALUE := ATTR_WHITE_VALUE p;
     ATTR_FLASH := ATTR_FLASH p; ATTR_EFFECT := ATTR_EFFECT p |}.

Definition set_COLOR_NAME (v : option string) (p : Params) : Params :=
  {| ATTR_PROFILE := ATTR_PROFILE p; ATTR_TRANSITION := ATTR_TRANSITION p;
     ATTR_BRIGHTNESS := ATTR_BRIGHTNESS p;
     ATTR_BRIGHTNESS_PCT := ATTR_BRIGHTNESS_PCT p;
     ATTR_BRIGHTNESS_STEP := ATTR_BRIGHTNESS_STEP p;
     ATTR_BRIGHTNESS_STEP_PCT := ATTR_BRIGHTNESS_STEP_PCT p;
     ATTR_COLOR_NAME := v; ATTR_COLOR_TEMP := ATTR_COLOR_TEMP p;
     ATTR_KELVIN := ATTR_KELVIN p; ATTR_HS_COLOR := ATTR_HS_COLOR p;
     ATTR_RGB_COLOR := ATTR_RGB_COLOR p; ATTR_RGBW_COLOR := ATTR_RGBW_COLOR p;
     ATTR_RGBWW_COLOR := ATTR_RGBWW_COLOR p; ATTR_XY_COLOR := ATTR_XY_COLOR p;
     ATTR_WHITE := ATTR_WHITE p; ATTR_WHITE_VALUE := ATTR_WHITE_VALUE p;
     ATTR_FLASH := ATTR_FLASH p; ATTR_EFFECT := ATTR_EFFECT p |}.

Definition set_COLOR_TEMP (v : option Z) (p : Params) : Params :=
  {| ATTR_PROFILE := ATTR_PROFILE p; ATTR_TRANSITION := ATTR_TRANSITION p;
     ATTR_BRIGHTNESS := ATTR_BRIGHTNESS p;
     ATTR_BRIGHTNESS_PCT := ATTR_BRIGHTNESS_PCT p;
     ATTR_BRIGHTNESS_STEP := ATTR_BRIGHTNESS_STEP p;
     ATTR_BRIGHTNESS_STEP_PCT := ATTR_BRIGHTNESS_STEP_PCT p;
     ATTR_COLOR_NAME := ATTR_COLOR_NAME p; ATTR_COLOR_TEMP := v;
     ATTR_KELVIN := ATTR_KELVIN p; ATTR_HS_COLOR := ATTR_HS_COLOR p;
     ATTR_RGB_COLOR := ATTR_RGB_COLOR p; ATTR_RGBW_COLOR := ATTR_RGBW_COLOR p;
     ATTR_RGBWW_COLOR := ATTR_RGBWW_COLOR p; ATTR_XY_COLOR := ATTR_XY_COLOR p;
     ATTR_WHITE := ATTR_WHITE p; ATTR_WHITE_VALUE := ATTR_WHITE_VALUE p;
     ATTR_FLASH := ATTR_FLASH p; ATTR_EFFECT := ATTR_EFFECT p |}.

Definition set_KELVIN (v : option Z) (p : Params) : Params :=
  {| ATTR_PROFILE := ATTR_PROFILE p; ATTR_TRANSITION := ATTR_TRANSITION p;
     ATTR_BRIGHTNESS := ATTR_BRIGHTNESS p;
     ATTR_BRIGHTNESS_PCT := ATTR_BRIGHTNESS_PCT p;
     ATTR_BRIGHTNESS_STEP := ATTR_BRIGHTNESS_STEP p;
     ATTR_BRIGHTNESS_STEP_PCT := ATTR_BRIGHTNESS_STEP_PCT p;
     ATTR_COLOR_NAME := ATTR_COLOR_NAME p;
     ATTR_COLOR_TEMP := ATTR_COLOR_TEMP p; ATTR_KELVIN := v;
     ATTR_HS_COLOR := ATTR_HS_COLOR p; ATTR_RGB_COLOR := ATTR_RGB_COLOR p;
     ATTR_RGBW_COLOR := ATTR_RGBW_COLOR p;
     ATTR_RGBWW_COLOR := ATTR_RGBWW_COLOR p; ATTR_XY_COLOR := ATTR_XY_COLOR p;
     ATTR_WHITE := ATTR_WHITE p; ATTR_WHITE_VALUE := ATTR_WHITE_VALUE p;
     ATTR_FLASH := ATTR_FLASH p; ATTR_EFFECT := ATTR_EFFECT p |}.

Definition set_HS_COLOR (v : option (float * float)) (p : Params) : Params :=
  {| ATTR_PROFILE := ATTR_PROFILE p; ATTR_TRANSITION := ATTR_TRANSITION p;
     ATTR_BRIGHTNESS := ATTR_BRIGHTNESS p;
     ATTR_BRIGHTNESS_PCT := ATTR_BRIGHTNESS_PCT p;
     ATTR_BRIGHTNESS_STEP := ATTR_BRIGHTNESS_STEP p;
     ATTR_BRIGHTNESS_STEP_PCT := ATTR_BRIGHTNESS_STEP_PCT p;
     ATTR_COLOR_NAME := ATTR_COLOR_NAME p;
     ATTR_COLOR_TEMP := ATTR_COLOR_TEMP p; ATTR_KELVIN := ATTR_KELVIN p;
     ATTR_HS_COLOR := v; ATTR_RGB_COLOR := ATTR_RGB_COLOR p;
     ATTR_RGBW_COLOR := ATTR_RGBW_COLOR p;
     ATTR_RGBWW_COLOR := ATTR_RGBWW_COLOR p; ATTR_XY_COLOR := ATTR_XY_COLOR p;
     ATTR_WHITE := ATTR_WHITE p; ATTR_WHITE_VALUE := ATTR_WHITE_VALUE p;
     ATTR_FLASH := ATTR_FLASH p; ATTR_EFFECT := ATTR_EFFECT p |}.

Definition set_RGB_COLOR (v : option (Z * Z * Z)) (p : Params) : Params :=
  {| ATTR_PROFILE := ATTR_PROFILE p; ATTR_TRANSITION := ATTR_TRANSITION p;
     ATTR_BRIGHTNESS := ATTR_BRIGHTNESS p;
     ATTR_BRIGHTNESS_PCT := ATTR_BRIGHTNESS_PCT p;
     ATTR_BRIGHTNESS_STEP := ATTR_BRIGHTNESS_STEP p;
     ATTR_BRIGHTNESS_STEP_PCT := ATTR_BRIGHTNESS_STEP_PCT p;
     ATTR_COLOR_NAME := ATTR_COLOR_NAME p;
     ATTR_COLOR_TEMP := ATTR_COLOR_TEMP p; ATTR_KELVIN := ATTR_KELVIN p;
     ATTR_HS_COLOR := ATTR_HS_COLOR p; ATTR_RGB_COLOR := v;
     ATTR_RGBW_COLOR := ATTR_RGBW_COLOR p;
     ATTR_RGBWW_COLOR := ATTR_RGBWW_COLOR p; ATTR_XY_COLOR := ATTR_XY_COLOR p;
     ATTR_WHITE := ATTR_WHITE p; ATTR_WHITE_VALUE := ATTR_WHITE_VALUE p;
     ATTR_FLASH := ATTR_FLASH p; ATTR_EFFECT := ATTR_EFFECT p |}.

Definition set_RGBW_COLOR (v : option (Z * Z * Z * Z)) (p : Params) : Params :=
  {| ATTR_PROFILE := ATTR_PROFILE p; ATTR_TRANSITION := ATTR_TRANSITION p;
     ATTR_BRIGHTNESS := ATTR_BRIGHTNESS p;
     ATTR_BRIGHTNESS_PCT := ATTR_BRIGHTNESS_PCT p;
     ATTR_BRIGHTNESS_STEP := ATTR_BRIGHTNESS_STEP p;
     ATTR_BRIGHTNESS_STEP_PCT := ATTR_BRIGHTNESS_STEP_PCT p;
     ATTR_COLOR_NAME := ATTR_COLOR_NAME p;
     ATTR_COLOR_TEMP := ATTR_COLOR_TEMP p; ATTR_KELVIN := ATTR_KELVIN p;
     ATTR_HS_COLOR := ATTR_HS_COLOR p; ATTR_RGB_COLOR := ATTR_RGB_COLOR p;
     ATTR_RGBW_COLOR := v; ATTR_RGBWW_COLOR := ATTR_RGBWW_COLOR p;
     ATTR_XY_COLOR := ATTR_XY_COLOR p; ATTR_WHITE := ATTR_WHITE p;
     ATTR_WHITE_VALUE := ATTR_WHITE_VALUE p; ATTR_FLASH := ATTR_FLASH p;
     ATTR_EFFECT := ATTR_EFFECT p |}.

Definition set_RGBWW_COLOR (v : option (Z * Z * Z * Z * Z)) (p : Params) : Params :=
  {| ATTR_PROFILE := ATTR_PROFILE p; ATTR_TRANSITION := ATTR_TRANSITION p;
     ATTR_BRIGHTNESS := ATTR_BRIGHTNESS p;
     ATTR_BRIGHTNESS_PCT := ATTR_BRIGHTNESS_PCT p;
     ATTR_BRIGHTNESS_STEP := ATTR_BRIGHTNESS_STEP p;
     ATTR_BRIGHTNESS_STEP_PCT := ATTR_BRIGHTNESS_STEP_PCT p;
     ATTR_COLOR_NAME := ATTR_COLOR_NAME p;
     ATTR_COLOR_TEMP := ATTR_COLOR_TEMP p; ATTR_KELVIN := ATTR_KELVIN p;
     ATTR_HS_COLOR := ATTR_HS_COLOR p; ATTR_RGB_COLOR := ATTR_RGB_COLOR p;
     ATTR_RGBW_COLOR := ATTR_RGBW_COLOR p; ATTR_RGBWW_COLOR := v;
     ATTR_XY_COLOR := ATTR_XY_COLOR p; ATTR_WHITE := ATTR_WHITE p;
     ATTR_WHITE_VALUE := ATTR_WHITE_VALUE p; ATTR_FLASH := ATTR_FLASH p;
     ATTR_EFFECT := ATTR_EFFECT p |}.

Definition set_XY_COLOR (v : option (float * float)) (p : Params) : Params :=
  {| ATTR_PROFILE := ATTR_PROFILE p; ATTR_TRANSITION := ATTR_TRANSITION p;
     ATTR_BRIGHTNESS := ATTR_BRIGHTNESS p;
     ATTR_BRIGHTNESS_PCT := ATTR_BRIGHTNESS_PCT p;
     ATTR_BRIGHTNESS_STEP := ATTR_BRIGHTNESS_STEP p;
     ATTR_BRIGHTNESS_STEP_PCT := ATTR_BRIGHTNESS_STEP_PCT p;
     ATTR_COLOR_NAME := ATTR_COLOR_NAME p;
     ATTR_COLOR_TEMP := ATTR_COLOR_TEMP p; ATTR_KELVIN := ATTR_KELVIN p;
     ATTR_HS_COLOR := ATTR_HS_COLOR p; ATTR_RGB_COLOR := ATTR_RGB_COLOR p;
     ATTR_RGBW_COLOR := ATTR_RGBW_COLOR p;
     ATTR_RGBWW_COLOR := ATTR_RGBWW_COLOR p; ATTR_XY_COLOR := v;
     ATTR_WHITE := ATTR_WHITE p; ATTR_WHITE_VALUE := ATTR_WHITE_VALUE p;
     ATTR_FLASH := ATTR_FLASH p; ATTR_EFFECT := ATTR_EFFECT p |}.

Definition set_WHITE (v : option Z) (p : Params) : Params :=
  {| ATTR_PROFILE := ATTR_PROFILE p; ATTR_TRANSITION := ATTR_TRANSITION p;
     ATTR_BRIGHTNESS := ATTR_BRIGHTNESS p;
     ATTR_BRIGHTNESS_PCT := ATTR_BRIGHTNESS_PCT p;
     ATTR_BRIGHTNESS_STEP := ATTR_BRIGHTNESS_STEP p;
     ATTR_BRIGHTNESS_STEP_PCT := ATTR_BRIGHTNESS_STEP_PCT p;
     ATTR_COLOR_NAME := ATTR_COLOR_NAME p;
     ATTR_COLOR_TEMP := ATTR_COLOR_TEMP p; ATTR_KELVIN := ATTR_KELVIN p;
     ATTR_HS_COLOR := ATTR_HS_COLOR p; ATTR_RGB_COLOR := ATTR_RGB_COLOR p;
     ATTR_RGBW_COLOR := ATTR_RGBW_COLOR p;
     ATTR_RGBWW_COLOR := ATTR_RGBWW_COLOR p; ATTR_XY_COLOR := ATTR_XY_COLOR p;
     ATTR_WHITE := v; ATTR_WHITE_VALUE := ATTR_WHITE_VALUE p;
     ATTR_FLASH := ATTR_FLASH p; ATTR_EFFECT := ATTR_EFFECT p |}.

Definition set_WHITE_VALUE (v : option Z) (p : Params) : Params :=
  {| ATTR_PROFILE := ATTR_PROFILE p; ATTR_TRANSITION := ATTR_TRANSITION p;
     ATTR_BRIGHTNESS := ATTR_BRIGHTNESS p;
     ATTR_BRIGHTNESS_PCT := ATTR_BRIGHTNESS_PCT p;
     ATTR_BRIGHTNESS_STEP := ATTR_BRIGHTNESS_STEP p;
     ATTR_BRIGHTNESS_STEP_PCT := ATTR_BRIGHTNESS_STEP_PCT p;
     ATTR_COLOR_NAME := ATTR_COLOR_NAME p;
     ATTR_COLOR_TEMP := ATTR_COLOR_TEMP p; ATTR_KELVIN := ATTR_KELVIN p;
     ATTR_HS_COLOR := ATTR_HS_COLOR p; ATTR_RGB_COLOR := ATTR_RGB_COLOR p;
     ATTR_RGBW_COLOR := ATTR_RGBW_COLOR p;
     ATTR_RGBWW_COLOR := ATTR_RGBWW_COLOR p; ATTR_XY_COLOR := ATTR_XY_COLOR p;
     ATTR_WHITE := ATTR_WHITE p; ATTR_WHITE_VALUE := v;
     ATTR_FLASH := ATTR_FLASH p; ATTR_EFFECT := ATTR_EFFECT p |}.

Definition set_FLASH (v : option string) (p : Params) : Params :=
  {| ATTR_PROFILE := ATTR_PROFILE p; ATTR_TRANSITION := ATTR_TRANSITION p;
     ATTR_BRIGHTNESS := ATTR_BRIGHTNESS p;
     ATTR_BRIGHTNESS_PCT := ATTR_BRIGHTNESS_PCT p;
     ATTR_BRIGHTNESS_STEP := ATTR_BRIGHTNESS_STEP p;
     ATTR_BRIGHTNESS_STEP_PCT := ATTR_BRIGHTNESS_STEP_PCT p;
     ATTR_COLOR_NAME := ATTR_COLOR_NAME p;
     ATTR_COLOR_TEMP := ATTR_COLOR_TEMP p; ATTR_KELVIN := ATTR_KELVIN p;
     ATTR_HS_COLOR := ATTR_HS_COLOR p; ATTR_RGB_COLOR := ATTR_RGB_COLOR p;
     ATTR_RGBW_COLOR := ATTR_RGBW_COLOR p;
     ATTR_RGBWW_COLOR := ATTR_RGBWW_COLOR p; ATTR_XY_COLOR := ATTR_XY_COLOR p;
     ATTR_WHITE := ATTR_WHITE p; ATTR_WHITE_VALUE := ATTR_WHITE_VALUE p;
     ATTR_FLASH := v; ATTR_EFFECT := ATTR_EFFECT p |}.

Definition set_EFFECT (v : option string) (p : Params) : Params :=
  {| ATTR_PROFILE := ATTR_PROFILE p; ATTR_TRANSITION := ATTR_TRANSITION p;
     ATTR_BRIGHTNESS := ATTR_BRIGHTNESS p;
     ATTR_BRIGHTNESS_PCT := ATTR_BRIGHTNESS_PCT p;
     ATTR_BRIGHTNESS_STEP := ATTR_BRIGHTNESS_STEP p;
     ATTR_BRIGHTNESS_STEP_PCT := ATTR_BRIGHTNESS_STEP_PCT p;
     ATTR_COLOR_NAME := ATTR_COLOR_NAME p;
     ATTR_COLOR_TEMP := ATTR_COLOR_TEMP p; ATTR_KELVIN := ATTR_KELVIN p;
     ATTR_HS_COLOR := ATTR_HS_COLOR p; ATTR_RGB_COLOR := ATTR_RGB_COLOR p;
     ATTR_RGBW_COLOR := ATTR_RGBW_COLOR p;
     ATTR_RGBWW_COLOR := ATTR_RGBWW_COLOR p; ATTR_XY_COLOR := ATTR_XY_COLOR p;
     ATTR_WHITE := ATTR_WHITE p; ATTR_WHITE_VALUE := ATTR_WHITE_VALUE p;
     ATTR_FLASH := ATTR_FLASH p; ATTR_EFFECT := v |}.

(** [p.setdefault(KEY, x)] for the three keys a profile fills in. *)
Definition setdefault_HS_COLOR (x : float * float) (p : Params) : Params :=
  if is_not_None (ATTR_HS_COLOR p) then p else set_HS_COLOR (Some x) p.

Definition setdefault_BRIGHTNESS (x : Z) (p : Params) : Params :=
  if is_not_None (ATTR_BRIGHTNESS p) then p else set_BRIGHTNESS (Some x) p.

Definition setdefault_TRANSITION (x : float) (p : Params) : Params :=
  if is_not_None (ATTR_TRANSITION p) then p else set_TRANSITION (Some x) p.

(** ** Python numbers *)

(** A value that is an [int] or a [float]. *)
Inductive number :=
| Int (n : Z)
| Float (x : float).

(** The integer nearest to [m * 2^e] for [m > 0], ties to the even one. *)
Definition round_half_even (m e : Z) : Z :=
  if 0 <=? e then m * 2 ^ e
  else
    let d := 2 ^ (- e) in
    let q := m / d in
    match 2 * (m mod d) ?= d with
    | Lt => q
    | Gt => q + 1
    | Eq => if Z.even q then q else q + 1
    end.

(** [round(x)] of a float: the nearest integer, ties to even; NaN raises
    [ValueError] and an infinity [OverflowError]. *)
Definition py_round (x : float) : result Z :=
  match Prim2SF x with
  | S754_zero _ => Ok 0
  | S754_nan => Raise ValueError
  | S754_infinity _ => Raise OverflowError
  | S754_finite s m e =>
      let n := round_half_even (Zpos m) e in
      Ok (if s then - n else n)
  end.

(** [int(x)]: a float is truncated towards zero. *)
Definition py_int (x : number) : result Z :=
  match x with
  | Int n => Ok n
  | Float x =>
      match Prim2SF x with
      | S754_zero _ => Ok 0
      | S754_nan => Raise ValueError
      | S754_infinity _ => Raise OverflowError
      | S754_finite s m e =>
          let n := if 0 <=? e then Zpos m * 2 ^ e else Zpos m / 2 ^ (- e) in
          Ok (if s then - n else n)
      end
  end.

(** ** Collaborators outside these sources *)

(** [homeassistant.util.color], imported as [color_util] (line 35).  Each
    field is the function of that name; a tuple unpacked into a call
    ([f( *rgb_color)]) is passed as its components.  [Kelvin] is whatever
    [color_temperature_mired_to_kelvin] returns: the light module only hands
    it on to [color_temperature_to_hs].

    Two of the helpers are called by the light module with an argument they
    have no value for.  [color_temperature_kelvin_to_mired] divides by its
    argument, and the schema lets a [kelvin] of 0 through: the call raises
    [ZeroDivisionError].  [color_temperature_to_rgbww] computes with the
    brightness, an [int], and is handed [None] when neither the request nor
    the light has one: the call raises [TypeError].  The fields are the
    helpers on the other arguments; [kelvin_to_mired] and [to_rgbww] below
    are the calls as the light module makes them. *)
Class ColorUtil := {
  Kelvin : Type;
  (* [None]: the name is unknown and the function raises ValueError *)
  color_name_to_rgb : string -> option (Z * Z * Z);
  color_temperature_kelvin_to_mired : Z -> number;
  color_temperature_mired_to_kelvin : Z -> Kelvin;
  color_temperature_to_hs : Kelvin -> float * float;
  (* color_temp, brightness, min_mireds, max_mireds *)
  color_temperature_to_rgbww : Z -> Z -> Z -> Z -> Z * Z * Z * Z * Z;
  color_RGB_to_hs : Z -> Z -> Z -> float * float;
  color_RGB_to_xy : Z -> Z -> Z -> float * float;
  color_hs_to_RGB : float -> float -> Z * Z * Z;
  color_hs_to_xy : float -> float -> float * float;
  color_xy_to_hs : float -> float -> float * float;
  color_xy_to_RGB : float -> float -> Z * Z * Z;
  color_rgb_to_rgbw : Z -> Z -> Z -> Z * Z * Z * Z;
  color_rgbw_to_rgb : Z -> Z -> Z -> Z -> Z * Z * Z;
  (* r, g, b, min_mireds, max_mireds *)
  color_rgb_to_rgbww : Z -> Z -> Z -> Z -> Z -> Z * Z * Z * Z * Z;
  (* the five components of the tuple, min_mireds, max_mireds *)
  color_rgbww_to_rgb : Z -> Z -> Z -> Z -> Z -> Z -> Z -> Z * Z * Z;
}.

(** The validators the profile schema (lines 610-630) is built from, each
    applied to one CSV cell; [None] says the validator raises [vol.Invalid].
    [small_float] and [byte] are those of
    [homeassistant.helpers.config_validation]; [Coerce_float] is
    [vol.Coerce(float)], Python's [float(...)] of a string. *)
Class ConfigValidation := {
  small_float : string -> option float;
  byte : string -> option Z;
  Coerce_float : string -> option float;
}.

(** [color_util.color_temperature_kelvin_to_mired(kelvin)] *)
Definition kelvin_to_mired {color_util : ColorUtil} (kelvin : Z)
  : result number :=
  if kelvin =? 0 then Raise ZeroDivisionError
  else Ok (color_temperature_kelvin_to_mired kelvin).

(** [color_util.color_temperature_to_rgbww(color_temp, brightness,
    min_mireds, max_mireds)], [brightness] an int or [None]. *)
Definition to_rgbww {color_util : ColorUtil} (color_temp : Z)
    (brightness : option Z) (min_mireds max_mireds : Z)
  : result (Z * Z * Z * Z * Z) :=
  match brightness with
  | Some brightness =>
      Ok (color_temperature_to_rgbww color_temp brightness
            min_mireds max_mireds)
  | None => Raise TypeError
  end.

(** ** Profiles (lines 589-714) *)

(** [_coerce_none] (lines 589-596) on a CSV cell: the empty string is
    accepted and becomes [None], any other string raises [vol.Invalid]. *)
Definition _coerce_none (value : string) : option unit :=
  if decide (value = "") then Some tt else None.

(** [vol.Any(validator, _coerce_none)]: the first validator that accepts the
    cell gives the value. *)
Definition Any_or_none {A} (validator : string -> option A) (value : string)
  : option (option A) :=
  match validator value with
  | Some a => Some (Some a)
  | None =>
      match _coerce_none value with
      | Some _ => Some None
      | None => None
      end
  end.

(** [VALID_TRANSITION] (line 219): [vol.All(vol.Coerce(float),
    vol.Clamp(min=0, max=6553))].  [Clamp] returns the bound itself when the
    value is beyond it (in Python the int [0] or [6553], here the float of the
    same value). *)
Definition VALID_TRANSITION {validation : ConfigValidation} (value : string)
  : option float :=
  match Coerce_float value with
  | None => None
  | Some v =>
      let v := if (v <? 0)%float then 0%float else v in
      let v := if (6553 <? v)%float then 6553%float else v in
      Some v
  end.

Module Profile.

(** lines 599-608 *)
Record t := {
  name : string;
  color_x : option float;
  color_y : option float;
  brightness : option Z;
  transition : option float;
  hs_color : option (float * float);
}.

(** The dataclass constructor followed by [__post_init__] (lines 632-640). *)
Definition make {color_util : ColorUtil} (name : string)
    (color_x color_y : option float) (brightness : option Z)
    (transition : option float) : t :=
  {| name := name;
     color_x := color_x;
     color_y := color_y;
     brightness := brightness;
     transition := transition;
     hs_color :=
       match color_x, color_y with
       | Some x, Some y => Some (color_xy_to_hs x y)
       | _, _ => None
       end |}.

(** [SCHEMA] (lines 610-630) applied to a row of a [csv.reader], a list of
    strings: the row has four or five cells, and each cell passes its
    validator.  A refused row raises [vol.MultipleInvalid]. *)
Definition SCHEMA {validation : ConfigValidation} (csv_row : list string)
  : result (string * option float * option float * option Z * option float) :=
  match csv_row with
  | [name; x; y; brightness] =>
      match Any_or_none small_float x, Any_or_none small_float y,
            Any_or_none byte brightness with
      | Some x, Some y, Some brightness => Ok (name, x, y, brightness, None)
      | _, _, _ => Raise vol_MultipleInvalid
      end
  | [name; x; y; brightness; transition] =>
      match Any_or_none small_float x, Any_or_none small_float y,
            Any_or_none byte brightness,
            Any_or_none VALID_TRANSITION transition with
      | Some x, Some y, Some brightness, Some transition =>
          Ok (name, x, y, brightness, transition)
      | _, _, _, _ => Raise vol_MultipleInvalid
      end
  | _ => Raise vol_MultipleInvalid
  end.

(** lines 642-645 *)
Definition from_csv_row {color_util : ColorUtil}
    {validation : ConfigValidation} (csv_row : list string)
  : result t :=
  '(name, x, y, brightness, transition) ← SCHEMA csv_row;
  Ok (make name x y brightness transition).

End Profile.

Definition LIGHT_PROFILES_FILE : string := "light_profiles.csv".

(** A CSV file as [csv.reader] yields it: its rows, each a list of cells. *)
Abbreviation csv_file := (list (list string)).

(** One [_LOGGER.error] record of [_load_profile_data]: the row, the path and
    the exception. *)
Record profile_error := {
  error_row : list string;
  error_path : string;
  error_exn : exn;
}.

Section Profiles.
Context {color_util : ColorUtil} {validation : ConfigValidation}.

(** The statements under [try:] (lines 674-676): the rows are read in order
    into [profiles]; the first row that raises ends the loop, and what was
    stored before it stays stored.  The result is the dict and, when a row
    raised, that row ([rec]) with its exception. *)
Fixpoint read_rows (reader : csv_file) (profiles : gmap string Profile.t)
  : gmap string Profile.t * option (list string * exn) :=
  match reader with
  | [] => (profiles, None)
  | rec :: reader =>
      match Profile.from_csv_row rec with
      | Ok profile =>
          read_rows reader (<[Profile.name profile := profile]> profiles)
      | Raise ex => (profiles, Some (rec, ex))
      end
  end.

(** The loop over [profile_paths] (lines 664-685).  [fs] maps the path of
    each regular file to its rows; [next(reader, None)] drops the header. *)
Fixpoint load_paths (fs : gmap string csv_file) (profile_paths : list string)
    (profiles : gmap string Profile.t) (log : list profile_error)
  : result (gmap string Profile.t * list profile_error) :=
  match profile_paths with
  | [] => Ok (profiles, log)
  | profile_path :: profile_paths =>
      match fs !! profile_path with
      | None => load_paths fs profile_paths profiles log
      | Some inp =>
          let reader := tail inp in
          match read_rows reader profiles with
          | (profiles, None) => load_paths fs profile_paths profiles log
          | (profiles, Some (rec, vol_MultipleInvalid)) =>
              load_paths fs profile_paths profiles
                (log ++ [ {| error_row := rec; error_path := profile_path;
                             error_exn := vol_MultipleInvalid |} ])
          | (_, Some (_, ex)) => Raise ex
          end
      end
  end.

(** lines 656-686.  [builtin_dir] is the directory of the module and
    [config_dir] the configuration directory; paths are joined with [/]. *)
Definition _load_profile_data (fs : gmap string csv_file)
    (builtin_dir config_dir : string)
  : result (gmap string Profile.t * list profile_error) :=
  let profile_paths :=
    [ builtin_dir +:+ "/" +:+ LIGHT_PROFILES_FILE;
      config_dir +:+ "/" +:+ LIGHT_PROFILES_FILE ] in
  load_paths fs profile_paths ∅ [].

(** lines 703-714; [data] is [self.data]. *)
Definition apply_profile (data : gmap string Profile.t) (name : string)
    (params : Params) : Params :=
  match data !! name with
  | None => params
  | Some profile =>
      let params :=
        match Profile.hs_color profile with
        | Some hs_color => setdefault_HS_COLOR hs_color params
        | None => params
        end in
      let params :=
        match Profile.brightness profile with
        | Some brightness => setdefault_BRIGHTNESS brightness params
        | None => params
        end in
      match Profile.transition profile with
      | Some transition => setdefault_TRANSITION transition params
      | None => params
      end
  end.

(** The body of the loop of [apply_default] for one [_entity_id]
    (lines 696-701). *)
Definition apply_default_for (data : gmap string Profile.t) (state_on : bool)
    (_entity_id : string) (params : Params) : Params :=
  let name := _entity_id +:+ ".default" in
  match data !! name with
  | None => params
  | Some profile =>
      if negb state_on || is_empty params
      then apply_profile data name params
      else
        match Profile.transition profile with
        | Some transition => setdefault_TRANSITION transition params
        | None => params
        end
  end.

(** lines 692-701 *)
Definition apply_default (data : gmap string Profile.t) (entity_id : string)
    (state_on : bool) (params : Params) : Params :=
  foldl
    (fun params _entity_id =>
       apply_default_for data state_on _entity_id params)
    params [entity_id; "group.all_lights"].

End Profiles.

(** ** Service handlers (lines 277-552) *)

(** What a handler asks of the device: [light.async_turn_on( **kwargs)] or
    [light.async_turn_off( **kwargs)]. *)
Inductive device_call :=
| async_turn_on (kwargs : Params)
| async_turn_off (kwargs : Params).

(** [brightness + n] where [brightness] is an int or None. *)
Definition py_add (brightness : option Z) (n : Z) : result Z :=
  match brightness with
  | Some b => Ok (b + n)
  | None => Raise TypeError
  end.

Section Services.
Context {color_util : ColorUtil}.

(** The profile store, [hass.data[DATA_PROFILES].data]. *)
Variable data : gmap string Profile.t.

(** lines 277-302 *)
Definition preprocess_turn_on_alternatives (params : Params) : result Params :=
  if is_not_None (ATTR_BRIGHTNESS_STEP params)
     || is_not_None (ATTR_BRIGHTNESS_STEP_PCT params)
  then Ok params
  else
    let params :=
      match ATTR_PROFILE params with
      | Some profile => apply_profile data profile (set_PROFILE None params)
      | None => params
      end in
    let params :=
      match ATTR_COLOR_NAME params with
      | Some color_name =>
          let params := set_COLOR_NAME None params in
          match color_name_to_rgb color_name with
          | Some rgb => set_RGB_COLOR (Some rgb) params
          | None => set_RGB_COLOR (Some (255, 255, 255)) params
          end
      | None => params
      end in
    params ←
      match ATTR_KELVIN params with
      | Some kelvin =>
          let params := set_KELVIN None params in
          mired ← kelvin_to_mired kelvin;
          mired ← py_int mired;
          Ok (set_COLOR_TEMP (Some mired) params)
      | None => Ok params
      end;
    match ATTR_BRIGHTNESS_PCT params with
    | Some brightness_pct =>
        let params := set_BRIGHTNESS_PCT None params in
        brightness ← py_round (255 * brightness_pct / 100)%float;
        Ok (set_BRIGHTNESS (Some brightness) params)
    | None => Ok params
    end.

(** [if not supported: params.pop(KEY, None)], where [pop] removes KEY. *)
Definition pop_unless (supported : bool) (pop : Params -> Params)
    (params : Params) : Params :=
  if supported then params else pop params.

(** lines 305-314 *)
Definition filter_turn_off_params (light : LightEntity) (params : Params)
  : Params :=
  let supported_features := supported_features light in
  let params :=
    pop_unless (has_feature supported_features LightEntityFeature_FLASH)
      (set_FLASH None) params in
  let params :=
    pop_unless (has_feature supported_features LightEntityFeature_TRANSITION)
      (set_TRANSITION None) params in
  set_TRANSITION (ATTR_TRANSITION params)
    (set_FLASH (ATTR_FLASH params) no_params).

(** lines 317-350 *)
Definition filter_turn_on_params (light : LightEntity) (params : Params)
  : Params :=
  let supported_features := supported_features light in
  let params :=
    pop_unless (has_feature supported_features LightEntityFeature_EFFECT)
      (set_EFFECT None) params in
  let params :=
    pop_unless (has_feature supported_features LightEntityFeature_FLASH)
      (set_FLASH None) params in
  let params :=
    pop_unless (has_feature supported_features LightEntityFeature_TRANSITION)
      (set_TRANSITION None) params in
  let params :=
    pop_unless (has_feature supported_features SUPPORT_WHITE_VALUE)
      (set_WHITE_VALUE None) params in
  let supported_color_modes := _light_internal_supported_color_modes light in
  let params :=
    pop_unless (brightness_supported (Some supported_color_modes))
      (set_BRIGHTNESS None) params in
  let params :=
    pop_unless (mode_in COLOR_TEMP supported_color_modes)
      (set_COLOR_TEMP None) params in
  let params :=
    pop_unless (mode_in HS supported_color_modes) (set_HS_COLOR None) params in
  let params :=
    pop_unless (mode_in RGB supported_color_modes) (set_RGB_COLOR None) params in
  let params :=
    pop_unless (mode_in RGBW supported_color_modes)
      (set_RGBW_COLOR None) params in
  let params :=
    pop_unless (mode_in RGBWW supported_color_modes)
      (set_RGBWW_COLOR None) params in
  let params :=
    pop_unless (mode_in WHITE supported_color_modes) (set_WHITE None) params in
  pop_unless (mode_in XY supported_color_modes) (set_XY_COLOR None) params.

(** lines 538-545; [call_params] is [call.data["params"]]. *)
Definition async_handle_light_off_service (light : LightEntity)
    (call_params : Params) : device_call :=
  let params := call_params in
  let params :=
    if negb (is_not_None (ATTR_TRANSITION params))
    then apply_default data (entity_id light) true params
    else params in
  async_turn_off (filter_turn_off_params light params).

(** lines 382-396: the brightness step is added to the brightness the light
    has now, and only then are the alternatives processed. *)
Definition resolve_brightness_step (light : LightEntity) (params : Params)
  : result Params :=
  if negb (is_empty params)
     && (is_not_None (ATTR_BRIGHTNESS_STEP params)
         || is_not_None (ATTR_BRIGHTNESS_STEP_PCT params))
  then
    let brightness := if is_on light then brightness light else Some 0 in
    '(brightness, params) ←
      match ATTR_BRIGHTNESS_STEP params with
      | Some step =>
          let params := set_BRIGHTNESS_STEP None params in
          brightness ← py_add brightness step;
          Ok (brightness, params)
      | None =>
          match ATTR_BRIGHTNESS_STEP_PCT params with
          | Some step_pct =>
              let params := set_BRIGHTNESS_STEP_PCT None params in
              step ← py_round (step_pct / 100 * 255)%float;
              brightness ← py_add brightness step;
              Ok (brightness, params)
          | None => Raise KeyError
          end
      end;
    let params :=
      set_BRIGHTNESS (Some (Z.max 0 (Z.min 255 brightness))) params in
    preprocess_turn_on_alternatives params
  else Ok params.

(** lines 398-401 *)
Definition apply_default_profile (light : LightEntity) (params : Params)
  : Params :=
  if (is_empty params || negb (is_on light))
     || (negb (is_empty params) && negb (is_not_None (ATTR_TRANSITION params)))
  then apply_default data (entity_id light) (is_on light) params
  else params.

(** lines 407-416 *)
Definition convert_legacy_rgbw (light : LightEntity) (params : Params)
  : Params :=
  let legacy_supported_color_modes :=
    _light_internal_supported_color_modes light in
  let supported_color_modes := supported_color_modes light in
  match ATTR_RGBW_COLOR params with
  | Some rgbw_color =>
      if mode_in RGBW legacy_supported_color_modes
         && negb (truthy supported_color_modes)
      then
        let params := set_RGBW_COLOR None params in
        let '(r, g, b, w) := rgbw_color in
        let params := set_RGB_COLOR (Some (r, g, b)) params in
        set_WHITE_VALUE (Some w) params
      else params
  | None => params
  end.

(** lines 418-434.  [supported_color_modes and ...] stops at a missing or
    empty set, so [default ∅] below is only read for a declared set.
    [params.get(ATTR_BRIGHTNESS, light.brightness)] is the brightness of the
    request, and that of the light when the request has none. *)
Definition emulate_color_temp (light : LightEntity) (params : Params)
  : result Params :=
  let legacy_supported_color_modes :=
    _light_internal_supported_color_modes light in
  let supported_color_modes := supported_color_modes light in
  match ATTR_COLOR_TEMP params with
  | Some color_temp =>
      if truthy supported_color_modes
         && negb (mode_in COLOR_TEMP (default ∅ supported_color_modes))
         && mode_in RGBWW (default ∅ supported_color_modes)
      then
        let params := set_COLOR_TEMP None params in
        let brightness :=
          match ATTR_BRIGHTNESS params with
          | Some brightness => Some brightness
          | None => brightness light
          end in
        rgbww_color ←
          to_rgbww color_temp brightness (min_mireds light) (max_mireds light);
        Ok (set_RGBWW_COLOR (Some rgbww_color) params)
      else if negb (mode_in COLOR_TEMP legacy_supported_color_modes)
      then
        let params := set_COLOR_TEMP None params in
        if color_supported (Some legacy_supported_color_modes)
        then
          let temp_k := color_temperature_mired_to_kelvin color_temp in
          Ok (set_HS_COLOR (Some (color_temperature_to_hs temp_k)) params)
        else Ok params
      else Ok params
  | None => Ok params
  end.

(** lines 440-451: the light declares no color modes, every color falls
    back to [hs_color]. *)
Definition convert_color_legacy (light : LightEntity) (params : Params)
  : Params :=
  match ATTR_RGB_COLOR params with
  | Some (r, g, b) =>
      set_HS_COLOR (Some (color_RGB_to_hs r g b)) (set_RGB_COLOR None params)
  | None =>
  match ATTR_XY_COLOR params with
  | Some (x, y) =>
      set_HS_COLOR (Some (color_xy_to_hs x y)) (set_XY_COLOR None params)
  | None =>
  match ATTR_RGBW_COLOR params with
  | Some (r, g, b, w) =>
      let '(r, g, b) := color_rgbw_to_rgb r g b w in
      set_HS_COLOR (Some (color_RGB_to_hs r g b)) (set_RGBW_COLOR None params)
  | None =>
  match ATTR_RGBWW_COLOR params with
  | Some (r, g, b, cw, ww) =>
      let '(r, g, b) :=
        color_rgbww_to_rgb r g b cw ww (min_mireds light) (max_mireds light) in
      set_HS_COLOR (Some (color_RGB_to_hs r g b)) (set_RGBWW_COLOR None params)
  | None => params
  end end end end.

(** The five [elif] branches of lines 452-519, one per requested color.
    Each takes the (non-empty) set the light declares and gives [None] when
    its condition does not hold, so that the next branch is tried. *)

(** lines 452-465 *)
Definition convert_hs_color (supported_color_modes : gset ColorMode)
    (light : LightEntity) (params : Params) : option Params :=
  match ATTR_HS_COLOR params with
  | Some (h, s) =>
      if negb (mode_in HS supported_color_modes) then
        let params := set_HS_COLOR None params in
        Some
          (if mode_in RGB supported_color_modes then
             set_RGB_COLOR (Some (color_hs_to_RGB h s)) params
           else if mode_in RGBW supported_color_modes then
             let '(r, g, b) := color_hs_to_RGB h s in
             set_RGBW_COLOR (Some (color_rgb_to_rgbw r g b)) params
           else if mode_in RGBWW supported_color_modes then
             let '(r, g, b) := color_hs_to_RGB h s in
             set_RGBWW_COLOR
               (Some (color_rgb_to_rgbww r g b
                        (min_mireds light) (max_mireds light)))
               params
           else if mode_in XY supported_color_modes then
             set_XY_COLOR (Some (color_hs_to_xy h s)) params
           else params)
      else None
  | None => None
  end.

(** lines 466-477 *)
Definition convert_rgb_color (supported_color_modes : gset ColorMode)
    (light : LightEntity) (params : Params) : option Params :=
  match ATTR_RGB_COLOR params with
  | Some (r, g, b) =>
      if negb (mode_in RGB supported_color_modes) then
        let params := set_RGB_COLOR None params in
        Some
          (if mode_in RGBW supported_color_modes then
             set_RGBW_COLOR (Some (color_rgb_to_rgbw r g b)) params
           else if mode_in RGBWW supported_color_modes then
             set_RGBWW_COLOR
               (Some (color_rgb_to_rgbww r g b
                        (min_mireds light) (max_mireds light)))
               params
           else if mode_in HS supported_color_modes then
             set_HS_COLOR (Some (color_RGB_to_hs r g b)) params
           else if mode_in XY supported_color_modes then
             set_XY_COLOR (Some (color_RGB_to_xy r g b)) params
           else params)
      else None
  | None => None
  end.

(** lines 478-491 *)
Definition convert_xy_color (supported_color_modes : gset ColorMode)
    (light : LightEntity) (params : Params) : option Params :=
  match ATTR_XY_COLOR params with
  | Some (x, y) =>
      if negb (mode_in XY supported_color_modes) then
        let params := set_XY_COLOR None params in
        Some
          (if mode_in HS supported_color_modes then
             set_HS_COLOR (Some (color_xy_to_hs x y)) params
           else if mode_in RGB supported_color_modes then
             set_RGB_COLOR (Some (color_xy_to_RGB x y)) params
           else if mode_in RGBW supported_color_modes then
             let '(r, g, b) := color_xy_to_RGB x y in
             set_RGBW_COLOR (Some (color_rgb_to_rgbw r g b)) params
           else if mode_in RGBWW supported_color_modes then
             let '(r, g, b) := color_xy_to_RGB x y in
             set_RGBWW_COLOR
               (Some (color_rgb_to_rgbww r g b
                        (min_mireds light) (max_mireds light)))
               params
           else params)
      else None
  | None => None
  end.

(** lines 492-504 *)
Definition convert_rgbw_color (supported_color_modes : gset ColorMode)
    (light : LightEntity) (params : Params) : option Params :=
  match ATTR_RGBW_COLOR params with
  | Some (r, g, b, w) =>
      if negb (mode_in RGBW supported_color_modes) then
        let params := set_RGBW_COLOR None params in
        let '(r, g, b) := color_rgbw_to_rgb r g b w in
        Some
          (if mode_in RGB supported_color_modes then
             set_RGB_COLOR (Some (r, g, b)) params
           else if mode_in RGBWW supported_color_modes then
             set_RGBWW_COLOR
               (Some (color_rgb_to_rgbww r g b
                        (min_mireds light) (max_mireds light)))
               params
           else if mode_in HS supported_color_modes then
             set_HS_COLOR (Some (color_RGB_to_hs r g b)) params
           else if mode_in XY supported_color_modes then
             set_XY_COLOR (Some (color_RGB_to_xy r g b)) params
           else params)
      else None
  | None => None
  end.

(** lines 505-519 *)
Definition convert_rgbww_color (supported_color_modes : gset ColorMode)
    (light : LightEntity) (params : Params) : option Params :=
  match ATTR_RGBWW_COLOR params with
  | Some (r, g, b, cw, ww) =>
      if negb (mode_in RGBWW supported_color_modes) then
        let params := set_RGBWW_COLOR None params in
        let '(r, g, b) :=
          color_rgbww_to_rgb r g b cw ww
            (min_mireds light) (max_mireds light) in
        Some
          (if mode_in RGB supported_color_modes then
             set_RGB_COLOR (Some (r, g, b)) params
           else if mode_in RGBW supported_color_modes then
             set_RGBW_COLOR (Some (color_rgb_to_rgbw r g b)) params
           else if mode_in HS supported_color_modes then
             set_HS_COLOR (Some (color_RGB_to_hs r g b)) params
           else if mode_in XY supported_color_modes then
             set_XY_COLOR (Some (color_RGB_to_xy r g b)) params
           else params)
      else None
  | None => None
  end.

(** lines 436-519: the first branch whose condition holds is taken. *)
Definition convert_color (light : LightEntity) (params : Params) : Params :=
  match supported_color_modes light with
  | None => convert_color_legacy light params
  | Some supported_color_modes =>
      if negb (set_truthy supported_color_modes)
      then convert_color_legacy light params
      else
        match convert_hs_color supported_color_modes light params with
        | Some params => params
        | None =>
        match convert_rgb_color supported_color_modes light params with
        | Some params => params
        | None =>
        match convert_xy_color supported_color_modes light params with
        | Some params => params
        | None =>
        match convert_rgbw_color supported_color_modes light params with
        | Some params => params
        | None =>
        match convert_rgbww_color supported_color_modes light params with
        | Some params => params
        | None => params
        end end end end end
  end.

(** lines 521-527.  [params.pop(ATTR_BRIGHTNESS, params[ATTR_WHITE])] is the
    brightness when the key is there (and removes it), the white value
    otherwise. *)
Definition override_white (light : LightEntity) (params : Params) : Params :=
  let supported_color_modes := supported_color_modes light in
  if truthy supported_color_modes
     && is_not_None (ATTR_WHITE params)
     && mode_in WHITE (default ∅ supported_color_modes)
  then
    match ATTR_BRIGHTNESS params with
    | Some brightness =>
        set_WHITE (Some brightness) (set_BRIGHTNESS None params)
    | None => set_WHITE (ATTR_WHITE params) params
    end
  else params.

(** lines 529-531 *)
Definition remove_white_value (light : LightEntity) (params : Params)
  : Params :=
  if truthy (supported_color_modes light)
  then set_WHITE_VALUE None params
  else params.

(** lines 380-531: the parameters as they stand when the handler decides
    between turning the light on and off. *)
Definition normalize (light : LightEntity) (call_params : Params)
  : result Params :=
  let params := call_params in
  params ← resolve_brightness_step light params;
  let params := apply_default_profile light params in
  let params := convert_legacy_rgbw light params in
  params ← emulate_color_temp light params;
  let params := convert_color light params in
  let params := override_white light params in
  let params := remove_white_value light params in
  Ok params.

(** [value == 0] for an int or an absent key ([params.get]). *)
Definition is_zero (value : option Z) : bool :=
  match value with
  | Some n => n =? 0
  | None => false
  end.

(** lines 375-536; [call_params] is [call.data["params"]]. *)
Definition async_handle_light_on_service (light : LightEntity)
    (call_params : Params) : result device_call :=
  params ← normalize light call_params;
  if is_zero (ATTR_BRIGHTNESS params) || is_zero (ATTR_WHITE params)
  then Ok (async_handle_light_off_service light call_params)
  else Ok (async_turn_on (filter_turn_on_params light params)).

(** lines 547-552 *)
Definition async_handle_toggle_service (light : LightEntity)
    (call_params : Params) : result device_call :=
  if is_on light
  then Ok (async_handle_light_off_service light call_params)
  else async_handle_light_on_service light call_params.

(** [preprocess_data] (lines 363-373) on the parameters of a call: the
    schema hands the handler the preprocessed dict. *)
Definition preprocess_data (params : Params) : result Params :=
  preprocess_turn_on_alternatives params.

End Services.

(** * Statements *)

(** ** Vocabulary of the statements *)

(** The five modes that carry a color in several channels. *)
Definition multi_channel (mode : ColorMode) : Prop :=
  mode = HS \/ mode = XY \/ mode = RGB \/ mode = RGBW \/ mode = RGBWW.

(** The rules a set of supported modes has to satisfy: it is not empty, has no
    [unknown], holds [onoff] or [brightness] only alone, and holds [white]
    only beside a multi-channel color mode. *)
Definition well_formed_modes (S : gset ColorMode) : Prop :=
  (S ≠ ∅)
  /\ (UNKNOWN ∉ S)
  /\ (forall mode other,
        mode = ONOFF \/ mode = BRIGHTNESS -> mode ∈ S -> other ∈ S -> other = mode)
  /\ (WHITE ∈ S -> exists mode, mode ∈ S /\ multi_channel mode).

(** The inference of the color mode read off the values alone, without
    looking at what the light supports: [rgbw] when a white value and a
    hue/saturation pair are both there, else [hs] when the pair is there, else
    [color_temp], else [brightness], each when its value is there, else
    [onoff]. *)
Definition color_mode_by_values (self : LightEntity) : ColorMode :=
  if is_not_None (white_value self) && is_not_None (hs_color self) then RGBW
  else if is_not_None (hs_color self) then HS
  else if is_not_None (color_temp self) then COLOR_TEMP
  else if is_not_None (brightness self) then BRIGHTNESS
  else ONOFF.

(** The modes the legacy feature bits stand for (the derivation of lines
    975-988, mode by mode). *)
Definition legacy_mode (supported_features : Z) (mode : ColorMode) : bool :=
  match mode with
  | COLOR_TEMP => has_feature supported_features SUPPORT_COLOR_TEMP
  | HS => has_feature supported_features SUPPORT_COLOR
  | RGBW => has_feature supported_features SUPPORT_WHITE_VALUE
  | BRIGHTNESS =>
      has_feature supported_features SUPPORT_BRIGHTNESS
      && negb (has_feature supported_features SUPPORT_COLOR_TEMP)
      && negb (has_feature supported_features SUPPORT_COLOR)
      && negb (has_feature supported_features SUPPORT_WHITE_VALUE)
  | ONOFF =>
      negb (has_feature supported_features SUPPORT_BRIGHTNESS)
      && negb (has_feature supported_features SUPPORT_COLOR_TEMP)
      && negb (has_feature supported_features SUPPORT_COLOR)
      && negb (has_feature supported_features SUPPORT_WHITE_VALUE)
  | _ => false
  end.

(** *** Lights used in the examples *)

(** A light of the base class as it is constructed: every attribute at its
    class default (lines 726-739), off. *)
Definition base_light : LightEntity :=
  {| entity_id := "light.kitchen";
     is_on := false;
     brightness := None;
     color_mode := None;
     color_temp := None;
     hs_color := None;
     white_value := None;
     min_mireds := 153;
     max_mireds := 500;
     supported_color_modes := None;
     supported_features := 0 |}.

(** The base light with a declared set of color modes. *)
Definition light_supporting (modes : gset ColorMode) : LightEntity :=
  {| entity_id := "light.kitchen";
     is_on := false;
     brightness := None;
     color_mode := None;
     color_temp := None;
     hs_color := None;
     white_value := None;
     min_mireds := 153;
     max_mireds := 500;
     supported_color_modes := Some modes;
     supported_features := 0 |}.

(** A legacy light with the brightness and color-temperature feature bits
    and no color bit, which is on and reports a color temperature and the
    hue/saturation pair of it. *)
Definition legacy_color_temp_light : LightEntity :=
  {| entity_id := "light.kitchen";
     is_on := true;
     brightness := Some 255;
     color_mode := None;
     color_temp := Some 300;
     hs_color := Some (28.0, 60.0)%float;
     white_value := None;
     min_mireds := 153;
     max_mireds := 500;
     supported_color_modes := None;
     supported_features := SUPPORT_BRIGHTNESS + SUPPORT_COLOR_TEMP |}.

(** [fill value default]: the value of a key after [setdefault], when the
    default may be missing. *)
Definition fill {A} (value default : option A) : option A :=
  match value with
  | Some v => Some v
  | None => default
  end.

(** Every field a profile defines is under its key in [params] already. *)
Definition covers (params : Params) (profile : Profile.t) : Prop :=
  (Profile.hs_color profile ≠ None -> ATTR_HS_COLOR params ≠ None)
  /\ (Profile.brightness profile ≠ None -> ATTR_BRIGHTNESS params ≠ None)
  /\ (Profile.transition profile ≠ None -> ATTR_TRANSITION params ≠ None).

(** *** Profiles used in the examples *)

(** A profile with a color, a brightness and a transition. *)
Definition relax_profile : Profile.t :=
  {| Profile.name := "relax";
     Profile.color_x := Some 0.5%float;
     Profile.color_y := Some 0.25%float;
     Profile.brightness := Some 144;
     Profile.transition := Some 2%float;
     Profile.hs_color := Some (36, 70)%float |}.

(** A request that names a color, a brightness and a transition. *)
Definition explicit_request : Params :=
  set_HS_COLOR (Some (0, 100)%float)
    (set_BRIGHTNESS (Some 10) (set_TRANSITION (Some 0%float) no_params)).

(** *** A stand-in for the color helpers

    The examples need some [ColorUtil] to evaluate the handlers on.  The
    stand-in below is a simple one of the right types; its values are not
    those of [homeassistant.util.color], and no statement depends on them:
    every theorem is proved for all [ColorUtil]. *)
Definition sample_color_util : ColorUtil :=
  {| Kelvin := Z;
     color_name_to_rgb name :=
       if decide (name = "red") then Some (255, 0, 0)
       else if decide (name = "blue") then Some (0, 0, 255)
       else None;
     color_temperature_kelvin_to_mired kelvin := Int (1000000 / kelvin);
     color_temperature_mired_to_kelvin mired := 1000000 / mired;
     color_temperature_to_hs kelvin := (28, 60)%float;
     color_temperature_to_rgbww color_temp brightness min_mireds max_mireds :=
       let cold :=
         (max_mireds - color_temp) * brightness / (max_mireds - min_mireds) in
       (0, 0, 0, cold, brightness - cold);
     color_RGB_to_hs r g b := (0, 100)%float;
     color_RGB_to_xy r g b := (0.5, 0.25)%float;
     color_hs_to_RGB h s := (255, 0, 0);
     color_hs_to_xy h s := (0.5, 0.25)%float;
     color_xy_to_hs x y := (0, 100)%float;
     color_xy_to_RGB x y := (255, 0, 0);
     color_rgb_to_rgbw r g b :=
       let w := Z.min r (Z.min g b) in (r - w, g - w, b - w, w);
     color_rgbw_to_rgb r g b w :=
       (Z.min 255 (r + w), Z.min 255 (g + w), Z.min 255 (b + w));
     color_rgb_to_rgbww r g b min_mireds max_mireds :=
       let w := Z.min r (Z.min g b) in (r - w, g - w, b - w, w, w);
     color_rgbww_to_rgb r g b cw ww min_mireds max_mireds :=
       (Z.min 255 (r + cw), Z.min 255 (g + cw), Z.min 255 (b + cw)) |}.

(** *** Requests used in the examples *)

(** [{"brightness": 0}] *)
Definition brightness_zero_request : Params :=
  set_BRIGHTNESS (Some 0) no_params.

(** [{"white": 100, "brightness": 200}] *)
Definition white_and_brightness_request : Params :=
  set_WHITE (Some 100) (set_BRIGHTNESS (Some 200) no_params).

(** [{"brightness_step": 50}] *)
Definition step_request : Params :=
  set_BRIGHTNESS_STEP (Some 50) no_params.

(** [{"color_temp": 300, "brightness": 200}] *)
Definition color_temp_request : Params :=
  set_COLOR_TEMP (Some 300) (set_BRIGHTNESS (Some 200) no_params).

(** [{"hs_color": (0, 100)}] *)
Definition hs_request : Params :=
  set_HS_COLOR (Some (0, 100)%float) no_params.

(** The keys a turn-off call may carry: [transition] and [flash]. *)
Definition only_transition_and_flash (kwargs : Params) : Prop :=
  kwargs = set_TRANSITION (ATTR_TRANSITION kwargs)
             (set_FLASH (ATTR_FLASH kwargs) no_params).

(** The request holds neither [brightness_step] nor [brightness_step_pct]. *)
Definition no_brightness_step (params : Params) : Prop :=
  ATTR_BRIGHTNESS_STEP params = None /\ ATTR_BRIGHTNESS_STEP_PCT params = None.

(** [x] clamped to the interval from 0 to 255. *)
Definition clamp_0_255 (x : Z) : Z :=
  if x <? 0 then 0 else if 255 <? x then 255 else x.

(** The brightness a step is added to: that of the light when it is on
    ([None] when it reports none), 0 when it is off. *)
Definition current_brightness (light : LightEntity) : option Z :=
  if is_on light then brightness light else Some 0.

(** The step of a request as a number of brightness levels:
    [brightness_step] itself, else [round(brightness_step_pct / 100 * 255)]. *)
Definition requested_step (params : Params) : result Z :=
  match ATTR_BRIGHTNESS_STEP params, ATTR_BRIGHTNESS_STEP_PCT params with
  | Some step, _ => Ok step
  | None, Some step_pct => py_round (step_pct / 100 * 255)%float
  | None, None => Raise KeyError
  end.

(** The request without the step key that was resolved. *)
Definition pop_step (params : Params) : Params :=
  match ATTR_BRIGHTNESS_STEP params with
  | Some _ => set_BRIGHTNESS_STEP None params
  | None => set_BRIGHTNESS_STEP_PCT None params
  end.

(** What the turn-on handler does with the parameters once the brightness
    step is resolved (lines 398-531). *)
Definition after_step_resolution {color_util : ColorUtil}
    (data : gmap string Profile.t) (light : LightEntity) (params : Params)
  : result Params :=
  params ←
    emulate_color_temp light
      (convert_legacy_rgbw light (apply_default_profile data light params));
  Ok (remove_white_value light
        (override_white light (convert_color light params))).

(** A light that is on and reports no brightness. *)
Definition on_off_light : LightEntity :=
  {| entity_id := "light.kitchen";
     is_on := true;
     brightness := None;
     color_mode := Some ONOFF;
     color_temp := None;
     hs_color := None;
     white_value := None;
     min_mireds := 153;
     max_mireds := 500;
     supported_color_modes := Some {[ ONOFF ]};
     supported_features := 0 |}.

(** A light that is on at brightness 250. *)
Definition bright_light : LightEntity :=
  {| entity_id := "light.kitchen";
     is_on := true;
     brightness := Some 250;
     color_mode := Some BRIGHTNESS;
     color_temp := None;
     hs_color := None;
     white_value := None;
     min_mireds := 153;
     max_mireds := 500;
     supported_color_modes := Some {[ BRIGHTNESS ]};
     supported_features := 0 |}.

(** [{"brightness_step_pct": 10.0}] *)
Definition step_pct_request : Params :=
  set_BRIGHTNESS_STEP_PCT (Some 10%float) no_params.

(** [params'] differs from [params] at most under the three keys a profile
    fills in. *)
Definition same_but_profile_keys (params params' : Params) : Prop :=
  params' = set_HS_COLOR (ATTR_HS_COLOR params')
              (set_BRIGHTNESS (ATTR_BRIGHTNESS params')
                 (set_TRANSITION (ATTR_TRANSITION params') params)).

(** What [filter_turn_on_params] leaves of the parameters, key by key. *)
Definition filtered_for (light : LightEntity) (p : Params) : Params :=
  let features := supported_features light in
  let modes := _light_internal_supported_color_modes light in
  let keep {A} (supported : bool) (value : option A) : option A :=
    if supported then value else None in
  {| ATTR_PROFILE := ATTR_PROFILE p;
     ATTR_TRANSITION :=
       keep (has_feature features LightEntityFeature_TRANSITION)
         (ATTR_TRANSITION p);
     ATTR_BRIGHTNESS :=
       keep (brightness_supported (Some modes)) (ATTR_BRIGHTNESS p);
     ATTR_BRIGHTNESS_PCT := ATTR_BRIGHTNESS_PCT p;
     ATTR_BRIGHTNESS_STEP := ATTR_BRIGHTNESS_STEP p;
     ATTR_BRIGHTNESS_STEP_PCT := ATTR_BRIGHTNESS_STEP_PCT p;
     ATTR_COLOR_NAME := ATTR_COLOR_NAME p;
     ATTR_COLOR_TEMP := keep (mode_in COLOR_TEMP modes) (ATTR_COLOR_TEMP p);
     ATTR_KELVIN := ATTR_KELVIN p;
     ATTR_HS_COLOR := keep (mode_in HS modes) (ATTR_HS_COLOR p);
     ATTR_RGB_COLOR := keep (mode_in RGB modes) (ATTR_RGB_COLOR p);
     ATTR_RGBW_COLOR := keep (mode_in RGBW modes) (ATTR_RGBW_COLOR p);
     ATTR_RGBWW_COLOR := keep (mode_in RGBWW modes) (ATTR_RGBWW_COLOR p);
     ATTR_XY_COLOR := keep (mode_in XY modes) (ATTR_XY_COLOR p);
     ATTR_WHITE := keep (mode_in WHITE modes) (ATTR_WHITE p);
     ATTR_WHITE_VALUE :=
       keep (has_feature features SUPPORT_WHITE_VALUE) (ATTR_WHITE_VALUE p);
     ATTR_FLASH :=
       keep (has_feature features LightEntityFeature_FLASH) (ATTR_FLASH p);
     ATTR_EFFECT :=
       keep (has_feature features LightEntityFeature_EFFECT) (ATTR_EFFECT p) |}.

(** *** Colors, for the statement about the conversion cascade *)

(** A color in one of the five representations a request can name. *)
Inductive Color :=
| hs_of (hs : float * float)
| xy_of (xy : float * float)
| rgb_of (rgb : Z * Z * Z)
| rgbw_of (rgbw : Z * Z * Z * Z)
| rgbww_of (rgbww : Z * Z * Z * Z * Z).

Definition mode_of (color : Color) : ColorMode :=
  match color with
  | hs_of _ => HS
  | xy_of _ => XY
  | rgb_of _ => RGB
  | rgbw_of _ => RGBW
  | rgbww_of _ => RGBWW
  end.

(** The color a request holds under the key of [mode]. *)
Definition color_at (mode : ColorMode) (params : Params) : option Color :=
  match mode with
  | HS => hs_of <$> ATTR_HS_COLOR params
  | XY => xy_of <$> ATTR_XY_COLOR params
  | RGB => rgb_of <$> ATTR_RGB_COLOR params
  | RGBW => rgbw_of <$> ATTR_RGBW_COLOR params
  | RGBWW => rgbww_of <$> ATTR_RGBWW_COLOR params
  | _ => None
  end.

(** [params[KEY] = color], KEY the key of the color's representation. *)
Definition put_color (color : Color) (params : Params) : Params :=
  match color with
  | hs_of hs => set_HS_COLOR (Some hs) params
  | xy_of xy => set_XY_COLOR (Some xy) params
  | rgb_of rgb => set_RGB_COLOR (Some rgb) params
  | rgbw_of rgbw => set_RGBW_COLOR (Some rgbw) params
  | rgbww_of rgbww => set_RGBWW_COLOR (Some rgbww) params
  end.

(** [params.pop(KEY)], KEY the key of [mode]. *)
Definition pop_color (mode : ColorMode) (params : Params) : Params :=
  match mode with
  | HS => set_HS_COLOR None params
  | XY => set_XY_COLOR None params
  | RGB => set_RGB_COLOR None params
  | RGBW => set_RGBW_COLOR None params
  | RGBWW => set_RGBWW_COLOR None params
  | _ => params
  end.

(** [color] is the one color of the request. *)
Definition only_color (color : Color) (params : Params) : Prop :=
  forall mode, color_at mode params
               = if decide (mode = mode_of color) then Some color else None.

(** The color as RGB, the pivot of the conversions. *)
Definition to_rgb {color_util : ColorUtil} (light : LightEntity) (color : Color)
  : Z * Z * Z :=
  match color with
  | hs_of (h, s) => color_hs_to_RGB h s
  | xy_of (x, y) => color_xy_to_RGB x y
  | rgb_of rgb => rgb
  | rgbw_of (r, g, b, w) => color_rgbw_to_rgb r g b w
  | rgbww_of (r, g, b, cw, ww) =>
      color_rgbww_to_rgb r g b cw ww (min_mireds light) (max_mireds light)
  end.

(** The color in the representation of [target]: hs and xy convert into each
    other directly, everything else goes through RGB. *)
Definition convert_to {color_util : ColorUtil} (light : LightEntity)
    (color : Color) (target : ColorMode) : Color :=
  match color, target with
  | hs_of (h, s), XY => xy_of (color_hs_to_xy h s)
  | xy_of (x, y), HS => hs_of (color_xy_to_hs x y)
  | _, HS => let '(r, g, b) := to_rgb light color in hs_of (color_RGB_to_hs r g b)
  | _, XY => let '(r, g, b) := to_rgb light color in xy_of (color_RGB_to_xy r g b)
  | _, RGBW =>
      let '(r, g, b) := to_rgb light color in rgbw_of (color_rgb_to_rgbw r g b)
  | _, RGBWW =>
      let '(r, g, b) := to_rgb light color in
      rgbww_of (color_rgb_to_rgbww r g b (min_mireds light) (max_mireds light))
  | _, _ => rgb_of (to_rgb light color)
  end.

(** The first mode of [preference] that the light supports. *)
Definition first_supported (preference : list ColorMode) (modes : gset ColorMode)
  : option ColorMode :=
  List.find (fun mode => mode_in mode modes) preference.

(** The order in which the code tries the targets, by requested
    representation (lines 452-519). *)
Definition target_preference (source : ColorMode) : list ColorMode :=
  match source with
  | HS => [RGB; RGBW; RGBWW; XY]
  | RGB => [RGBW; RGBWW; HS; XY]
  | XY => [HS; RGB; RGBW; RGBWW]
  | RGBW => [RGB; RGBWW; HS; XY]
  | RGBWW => [RGB; RGBW; HS; XY]
  | _ => []
  end.

(** The order of the claim: the modes of the same family as the source
    first (hs with xy; rgb, rgbw and rgbww), then hs, rgb, xy, rgbw, rgbww. *)
Definition claimed_order : list ColorMode := [HS; RGB; XY; RGBW; RGBWW].

Definition same_family (a b : ColorMode) : bool :=
  match a, b with
  | (HS | XY), (HS | XY) => true
  | (RGB | RGBW | RGBWW), (RGB | RGBW | RGBWW) => true
  | _, _ => false
  end.

Definition claimed_preference (source : ColorMode) : list ColorMode :=
  List.filter (same_family source) claimed_order ++ claimed_order.

(** *** Profile files used in the examples *)

Definition builtin_dir : string := "/usr/src/homeassistant/components/light".
Definition config_dir : string := "/config".

(** A header and three rows; the second row has one cell and is refused by
    the schema, the other two have no color, brightness or transition and are
    accepted whatever the validators of the cells are. *)
Definition file_with_bad_row : csv_file :=
  [ ["id"; "x"; "y"; "brightness"];
    ["first"; ""; ""; ""];
    ["bad"];
    ["second"; ""; ""; ""] ].

(** A user file with one good row. *)
Definition user_file : csv_file :=
  [ ["id"; "x"; "y"; "brightness"];
    ["third"; ""; ""; ""] ].

(** The built-in file is [file_with_bad_row], the user file [user_file]. *)
Definition files_with_bad_row : gmap string csv_file :=
  {[ builtin_dir +:+ "/" +:+ LIGHT_PROFILES_FILE := file_with_bad_row;
     config_dir +:+ "/" +:+ LIGHT_PROFILES_FILE := user_file ]}.

(** *** Vocabulary of the statements about whole requests *)

(** The color as the cascade hands it on: converted into the first mode,
    in the order for its representation, that the light supports; nothing
    when the light supports none of them. *)
Definition converted_color {color_util : ColorUtil} (light : LightEntity)
    (modes : gset ColorMode) (color : Color) : option Color :=
  target ← first_supported (target_preference (mode_of color)) modes;
  Some (convert_to light color target).

(** The colors [params] holds: [color] and no other, or none at all. *)
Definition colors_are (color : option Color) (params : Params) : Prop :=
  match color with
  | Some color => only_color color params
  | None => forall mode, color_at mode params = None
  end.

(** The default profiles put no color into the request: they are not
    applied, or have none, or the request has an [hs_color] already. *)
Definition defaults_add_no_color (data : gmap string Profile.t)
    (light : LightEntity) (params : Params) : Prop :=
  ATTR_HS_COLOR (apply_default_profile data light params)
  = ATTR_HS_COLOR params.

(** What the turn-on handler does once the parameters are normalized
    (lines 533-536). *)
Definition dispatch (data : gmap string Profile.t) (light : LightEntity)
    (call_params params : Params) : device_call :=
  if is_zero (ATTR_BRIGHTNESS params) || is_zero (ATTR_WHITE params)
  then async_handle_light_off_service data light call_params
  else async_turn_on (filter_turn_on_params light params).

(** [{"color_temp": 300}] *)
Definition color_temp_only_request : Params :=
  set_COLOR_TEMP (Some 300) no_params.

(** [params] holds no color temperature, and the colors [color]. *)
Definition emulated_as (color : option Color) (params : Params) : Prop :=
  ATTR_COLOR_TEMP params = None /\ colors_are color params.

(** * Proofs *)

(** ** Sets of modes *)

Lemma mode_in_true mode (S : gset ColorMode) : mode_in mode S = true <-> mode ∈ S.
Proof. unfold mode_in. apply bool_decide_eq_true. Qed.

Lemma mode_in_false mode (S : gset ColorMode) : mode_in mode S = false <-> mode ∉ S.
Proof. unfold mode_in. apply bool_decide_eq_false. Qed.

Lemma set_truthy_true (S : gset ColorMode) : set_truthy S = true <-> S ≠ ∅.
Proof.
  unfold set_truthy. rewrite negb_true_iff. apply bool_decide_eq_false.
Qed.

Lemma set_truthy_false (S : gset ColorMode) : set_truthy S = false <-> S = ∅.
Proof.
  unfold set_truthy. rewrite negb_false_iff. apply bool_decide_eq_true.
Qed.

Lemma any_in_true (among S : gset ColorMode) :
  any_in among S = true <-> exists mode, mode ∈ S /\ mode ∈ among.
Proof.
  unfold any_in. rewrite existsb_exists. split.
  - intros (mode & Hin & Hm). exists mode. split.
    + apply elem_of_elements, list_elem_of_In, Hin.
    + apply mode_in_true, Hm.
  - intros (mode & Hin & Hm). exists mode. split.
    + apply list_elem_of_In, elem_of_elements, Hin.
    + apply mode_in_true, Hm.
Qed.

Lemma in_COLOR_MODES_COLOR mode : mode ∈ COLOR_MODES_COLOR <-> multi_channel mode.
Proof.
  unfold COLOR_MODES_COLOR, multi_channel.
  rewrite !elem_of_union, !elem_of_singleton. tauto.
Qed.

Lemma color_supported_true (S : gset ColorMode) :
  color_supported (Some S) = true <-> exists mode, mode ∈ S /\ multi_channel mode.
Proof.
  unfold color_supported. destruct (set_truthy S) eqn:Ht.
  - rewrite any_in_true. by setoid_rewrite in_COLOR_MODES_COLOR.
  - apply set_truthy_false in Ht. subst S. split; [done|].
    intros (mode & Hin & _). set_solver.
Qed.

Lemma size_pos_of_elem (S : gset ColorMode) mode : mode ∈ S -> (0 < size S)%nat.
Proof.
  intros Hin. assert (size S ≠ 0%nat); [|lia].
  apply size_non_empty_iff. intros Hempty.
  apply (Hempty mode) in Hin. by apply not_elem_of_empty in Hin.
Qed.

(** A set that holds [mode] has more than one element exactly when it holds
    something else too. *)
Lemma size_gt_1_other (S : gset ColorMode) mode :
  mode ∈ S -> ((1 < size S)%nat <-> exists other, other ∈ S /\ other ≠ mode).
Proof.
  intros Hin.
  assert (Hsub : ({[mode]} : gset ColorMode) ⊆ S).
  { intros x Hx. apply elem_of_singleton in Hx. by subst x. }
  pose proof (size_difference S {[mode]} Hsub) as Hsz.
  rewrite size_singleton in Hsz.
  pose proof (size_pos_of_elem S mode Hin) as Hpos.
  split.
  - intros Hlt.
    destruct (size_pos_elem_of (S ∖ {[mode]})) as [other Ho]; [lia|].
    apply elem_of_difference in Ho as [Ho Hne].
    exists other. split; [done|]. intros ->. apply Hne. by apply elem_of_singleton.
  - intros (other & Ho & Hne).
    assert (0 < size (S ∖ {[mode]}))%nat; [|lia].
    apply (size_pos_of_elem _ other), elem_of_difference. split; [done|].
    intros Heq. by apply elem_of_singleton in Heq.
Qed.

Lemma alone_or_crowded (S : gset ColorMode) mode :
  mode_in mode S && bool_decide (1 < size S)%nat = false
  <-> (mode ∈ S -> forall other, other ∈ S -> other = mode).
Proof.
  rewrite andb_false_iff, mode_in_false, bool_decide_eq_false. split.
  - intros [Hnot | Hsize] Hin other Ho; [done|].
    destruct (decide (other = mode)) as [|Hne]; [done|].
    exfalso. apply Hsize. apply (size_gt_1_other S mode Hin). by exists other.
  - intros Halone. destruct (decide (mode ∈ S)) as [Hin|]; [right|by left].
    intros Hlt. apply (size_gt_1_other S mode Hin) in Hlt as (other & Ho & Hne).
    by apply Hne, Halone.
Qed.

(** C3. Validating a set of color modes returns the set exactly when the set
    is non-empty, has no [unknown], does not combine [onoff] or [brightness]
    with any other mode, and has a multi-channel color mode (hs, xy, rgb,
    rgbw or rgbww) whenever it has [white]; in every other case it raises
    [vol.Error]. *)
Theorem valid_supported_color_modes_iff (color_modes : list ColorMode) :
  let S : gset ColorMode := list_to_set color_modes in
  (valid_supported_color_modes color_modes = Ok S <-> well_formed_modes S)
  /\ (valid_supported_color_modes color_modes = Ok S
      \/ valid_supported_color_modes color_modes = Raise vol_Error).
Proof.
  intros S. unfold valid_supported_color_modes. fold S.
  split; [|destruct (_ || _); auto].
  destruct (negb (set_truthy S) || _ || _ || _ || _) eqn:Hcond.
  - split; [done|]. intros (Hne & Hunk & Halone & Hwhite). exfalso.
    repeat (apply orb_true_iff in Hcond as [Hcond | Hcond]).
    + apply negb_true_iff, set_truthy_false in Hcond. done.
    + apply mode_in_true in Hcond. done.
    + apply andb_true_iff in Hcond as [Hin Hsz].
      apply mode_in_true in Hin. apply bool_decide_eq_true in Hsz.
      apply (size_gt_1_other S _ Hin) in Hsz as (other & Ho & Hneq).
      apply Hneq. apply (Halone BRIGHTNESS); auto.
    + apply andb_true_iff in Hcond as [Hin Hsz].
      apply mode_in_true in Hin. apply bool_decide_eq_true in Hsz.
      apply (size_gt_1_other S _ Hin) in Hsz as (other & Ho & Hneq).
      apply Hneq. apply (Halone ONOFF); auto.
    + apply andb_true_iff in Hcond as [Hin Hcol].
      apply mode_in_true in Hin. apply negb_true_iff in Hcol.
      apply Hwhite, color_supported_true in Hin. congruence.
  - split; [intros _|done].
    repeat (apply orb_false_iff in Hcond as [Hcond ?]).
    apply negb_false_iff, set_truthy_true in Hcond.
    repeat split.
    + done.
    + by apply mode_in_false.
    + intros mode other [-> | ->] Hin Ho.
      * by eapply alone_or_crowded.
      * by eapply alone_or_crowded.
    + intros Hin. apply color_supported_true.
      apply andb_false_iff in H as [H | H].
      * apply mode_in_false in H. done.
      * by apply negb_false_iff in H.
Qed.

(** ** The modes a light supports and the mode it is in *)

Lemma is_not_None_true {A} (o : option A) : is_not_None o = true <-> o ≠ None.
Proof. destruct o; simpl; split; congruence. Qed.

Lemma is_not_None_false {A} (o : option A) : is_not_None o = false <-> o = None.
Proof. destruct o; simpl; split; congruence. Qed.

(** The set derived from the feature bits holds exactly the modes of
    [legacy_mode]. *)
Lemma legacy_supported_color_modes_elem (self : LightEntity) mode :
  supported_color_modes self = None ->
  mode ∈ _light_internal_supported_color_modes self
  <-> legacy_mode (supported_features self) mode = true.
Proof.
  intros Hnone. unfold _light_internal_supported_color_modes, legacy_mode.
  rewrite Hnone.
  destruct (has_feature _ SUPPORT_COLOR_TEMP), (has_feature _ SUPPORT_COLOR),
    (has_feature _ SUPPORT_WHITE_VALUE), (has_feature _ SUPPORT_BRIGHTNESS);
    cbv zeta; simpl andb;
    repeat match goal with
      | |- context [set_truthy ?s] =>
          let b := eval vm_compute in (set_truthy s) in
          change (set_truthy s) with b; cbv iota; simpl negb
      end;
    rewrite ?elem_of_union, ?elem_of_singleton;
    destruct mode; split; intros Hm; try done;
    repeat match goal with
      | H : _ \/ _ |- _ => destruct H
      | H : _ ∈ ∅ |- _ => by apply not_elem_of_empty in H
      end; try done; auto.
Qed.

(** C10, amended. The internally computed set of supported color modes is
    empty only for a light that itself declares the empty set.  A light that
    declares nothing ([None]) gets the modes of its legacy feature bits
    (color_temp, hs, rgbw; brightness when none of these is there), and
    [onoff] when no bit matches, so its set is never empty; a light that
    declares a set gets that set. *)
Theorem internal_supported_color_modes_empty_iff (self : LightEntity) :
  (_light_internal_supported_color_modes self = ∅
   <-> supported_color_modes self = Some ∅)
  /\ (forall modes, supported_color_modes self = Some modes ->
        _light_internal_supported_color_modes self = modes)
  /\ (supported_color_modes self = None ->
        (forall mode, mode ∈ _light_internal_supported_color_modes self
                      <-> legacy_mode (supported_features self) mode = true)
        /\ (_light_internal_supported_color_modes self = {[ ONOFF ]}
            <-> forall mode, mode ≠ ONOFF ->
                  legacy_mode (supported_features self) mode = false)).
Proof.
  assert (Hdecl : forall modes, supported_color_modes self = Some modes ->
            _light_internal_supported_color_modes self = modes).
  { intros modes Hm. unfold _light_internal_supported_color_modes. by rewrite Hm. }
  assert (Hex : supported_color_modes self = None ->
            exists mode, legacy_mode (supported_features self) mode = true).
  { intros _. unfold legacy_mode.
    destruct (has_feature _ SUPPORT_COLOR_TEMP) eqn:Hct; [by exists COLOR_TEMP|].
    destruct (has_feature _ SUPPORT_COLOR) eqn:Hhs; [by exists HS|].
    destruct (has_feature _ SUPPORT_WHITE_VALUE) eqn:Hw; [by exists RGBW|].
    destruct (has_feature _ SUPPORT_BRIGHTNESS) eqn:Hb.
    - by exists BRIGHTNESS.
    - by exists ONOFF. }
  split; [|split; [exact Hdecl|]].
  - destruct (supported_color_modes self) as [modes|] eqn:Hs.
    + rewrite (Hdecl modes eq_refl). split; congruence.
    + split; [|done]. intros Hempty. exfalso.
      destruct (Hex eq_refl) as [mode Hmode].
      apply (legacy_supported_color_modes_elem self mode Hs) in Hmode.
      rewrite Hempty in Hmode. by apply not_elem_of_empty in Hmode.
  - intros Hnone. split.
    + intros mode. by apply legacy_supported_color_modes_elem.
    + split.
      * intros Heq mode Hne.
        destruct (legacy_mode _ mode) eqn:Hl; [|done].
        apply (legacy_supported_color_modes_elem self mode Hnone) in Hl.
        rewrite Heq in Hl. by apply elem_of_singleton in Hl.
      * intros Hall. apply set_eq. intros mode.
        rewrite (legacy_supported_color_modes_elem self mode Hnone).
        rewrite elem_of_singleton. split.
        -- intros Hl. destruct (decide (mode = ONOFF)) as [|Hne]; [done|].
           rewrite (Hall mode Hne) in Hl. done.
        -- intros ->. destruct (Hex Hnone) as [mode Hmode].
           destruct (decide (mode = ONOFF)) as [->|Hne]; [done|].
           rewrite (Hall mode Hne) in Hmode. done.
Qed.

(** C10 as stated fails: a light that declares the empty set of color modes
    has an empty internal set. *)
Lemma internal_supported_color_modes_can_be_empty :
  _light_internal_supported_color_modes (light_supporting ∅) = ∅.
Proof. reflexivity. Qed.

(** C6, amended. A light that declares a color mode is in that mode.  For a
    light that declares none, the mode is inferred in this order, each step
    asking for the mode to be in the internally computed supported set as
    well as for the value: [rgbw] when rgbw is supported and a white value
    and a hue/saturation pair are both there; else [hs] when hs is supported
    and the pair is there; else [color_temp] when it is supported and the
    color temperature is there; else [brightness] when it is supported and
    the brightness is there; else [onoff] when it is supported; else
    [unknown].  The inference is a total function: it never raises. *)
Theorem light_internal_color_mode_fallback (self : LightEntity) :
  let supported := _light_internal_supported_color_modes self in
  let rgbw := RGBW ∈ supported /\ white_value self ≠ None /\ hs_color self ≠ None in
  let hs := HS ∈ supported /\ hs_color self ≠ None in
  let ct := COLOR_TEMP ∈ supported /\ color_temp self ≠ None in
  let bri := BRIGHTNESS ∈ supported /\ brightness self ≠ None in
  let onoff := ONOFF ∈ supported in
  match color_mode self with
  | Some mode => _light_internal_color_mode self = mode
  | None =>
      (rgbw -> _light_internal_color_mode self = RGBW)
      /\ (~ rgbw -> hs -> _light_internal_color_mode self = HS)
      /\ (~ rgbw -> ~ hs -> ct -> _light_internal_color_mode self = COLOR_TEMP)
      /\ (~ rgbw -> ~ hs -> ~ ct -> bri ->
          _light_internal_color_mode self = BRIGHTNESS)
      /\ (~ rgbw -> ~ hs -> ~ ct -> ~ bri -> onoff ->
          _light_internal_color_mode self = ONOFF)
      /\ (~ rgbw -> ~ hs -> ~ ct -> ~ bri -> ~ onoff ->
          _light_internal_color_mode self = UNKNOWN)
  end.
Proof.
  intros supported rgbw hs ct bri onoff.
  unfold _light_internal_color_mode. fold supported.
  destruct (color_mode self) as [mode|]; [done|].
  assert (Hrgbw : mode_in RGBW supported && is_not_None (white_value self)
                  && is_not_None (hs_color self) = true <-> rgbw).
  { rewrite !andb_true_iff, mode_in_true, !is_not_None_true. unfold rgbw. tauto. }
  assert (Hhs : mode_in HS supported && is_not_None (hs_color self) = true
                <-> hs).
  { rewrite andb_true_iff, mode_in_true, is_not_None_true. done. }
  assert (Hct : mode_in COLOR_TEMP supported && is_not_None (color_temp self)
                = true <-> ct).
  { rewrite andb_true_iff, mode_in_true, is_not_None_true. done. }
  assert (Hbri : mode_in BRIGHTNESS supported && is_not_None (brightness self)
                 = true <-> bri).
  { rewrite andb_true_iff, mode_in_true, is_not_None_true. done. }
  assert (Honoff : mode_in ONOFF supported = true <-> onoff).
  { apply mode_in_true. }
  destruct (mode_in RGBW supported && _ && _);
    [|destruct (mode_in HS supported && _);
      [|destruct (mode_in COLOR_TEMP supported && _);
        [|destruct (mode_in BRIGHTNESS supported && _);
          [|destruct (mode_in ONOFF supported)]]]];
    repeat split; intros;
    repeat match goal with
      | H : true = true <-> _ |- _ => apply proj1 in H; specialize (H eq_refl)
      | H : false = true <-> _ |- _ => apply proj2 in H
      end;
    first [ done | exfalso; auto; fail
          | exfalso; match goal with H : _ -> false = true |- _ =>
                       discriminate H; assumption end ].
Qed.

(** C6 as stated fails: the legacy light below supports [color_temp] and not
    [hs]; it reports a hue/saturation pair and a color temperature.  By the
    values alone its mode would be [hs]; the code gives [color_temp]. *)
Lemma light_internal_color_mode_not_by_values :
  color_mode legacy_color_temp_light = None
  /\ color_mode_by_values legacy_color_temp_light = HS
  /\ _light_internal_color_mode legacy_color_temp_light = COLOR_TEMP.
Proof. repeat split; vm_compute; reflexivity. Qed.

(** ** Applying a profile *)

(** What [apply_profile] computes, key by key. *)
Lemma apply_profile_fields (data : gmap string Profile.t) name params :
  apply_profile data name params
  = set_HS_COLOR (fill (ATTR_HS_COLOR params) (data !! name ≫= Profile.hs_color))
      (set_BRIGHTNESS
         (fill (ATTR_BRIGHTNESS params) (data !! name ≫= Profile.brightness))
         (set_TRANSITION
            (fill (ATTR_TRANSITION params) (data !! name ≫= Profile.transition))
            params)).
Proof.
  unfold apply_profile. destruct params. destruct (data !! name) as [profile|];
    simpl; [|by destruct ATTR_HS_COLOR0, ATTR_BRIGHTNESS0, ATTR_TRANSITION0].
  destruct (Profile.hs_color profile), (Profile.brightness profile),
    (Profile.transition profile), ATTR_HS_COLOR0, ATTR_BRIGHTNESS0,
    ATTR_TRANSITION0; reflexivity.
Qed.

(** C9. Applying a profile changes no key but [hs_color], [brightness] and
    [transition]; each of the three keeps the value it has in [params] when
    it is present, and gets the profile's value only when it is absent.  So a
    profile whose fields are all present in [params] already leaves [params]
    as it is, and applying a profile a second time changes nothing. *)
Theorem apply_profile_sets_absent_only (data : gmap string Profile.t)
    (name : string) (params : Params) :
  let params' := apply_profile data name params in
  params' = set_HS_COLOR (ATTR_HS_COLOR params')
              (set_BRIGHTNESS (ATTR_BRIGHTNESS params')
                 (set_TRANSITION (ATTR_TRANSITION params') params))
  /\ ATTR_HS_COLOR params'
     = fill (ATTR_HS_COLOR params) (data !! name ≫= Profile.hs_color)
  /\ ATTR_BRIGHTNESS params'
     = fill (ATTR_BRIGHTNESS params) (data !! name ≫= Profile.brightness)
  /\ ATTR_TRANSITION params'
     = fill (ATTR_TRANSITION params) (data !! name ≫= Profile.transition)
  /\ (forall profile, data !! name = Some profile -> covers params profile ->
        params' = params)
  /\ apply_profile data name params' = params'.
Proof.
  intros params'. unfold params'. rewrite !apply_profile_fields.
  repeat split; try reflexivity.
  - intros profile Hp (Hhs & Hb & Ht). rewrite Hp. simpl.
    destruct params as [? t b ? ? ? ? ? ? hs ? ? ? ? ? ? ? ?]. simpl in *.
    destruct (Profile.hs_color profile), (Profile.brightness profile),
      (Profile.transition profile), hs, b, t; simpl;
      try reflexivity; exfalso;
      first [by apply Hhs | by apply Hb | by apply Ht].
  - destruct params as [? t b ? ? ? ? ? ? hs ? ? ? ? ? ? ? ?]. simpl.
    by destruct hs, b, t, (data !! name ≫= Profile.hs_color),
      (data !! name ≫= Profile.brightness),
      (data !! name ≫= Profile.transition).
Qed.

(** The hypotheses of C9's idempotence clause hold of the request that names
    all three fields, and the profile leaves it alone. *)
Lemma apply_profile_sets_absent_only_witness :
  covers explicit_request relax_profile
  /\ apply_profile {[ "relax" := relax_profile ]} "relax" explicit_request
     = explicit_request.
Proof.
  split.
  - unfold covers. simpl. repeat split; congruence.
  - destruct (apply_profile_sets_absent_only
                {[ "relax" := relax_profile ]} "relax" explicit_request)
      as (_ & _ & _ & _ & Hcovered & _).
    apply (Hcovered relax_profile).
    + apply lookup_singleton_eq.
    + unfold covers. simpl. repeat split; congruence.
Defined.

(** ** The stages of the turn-on handler *)

Arguments is_empty : simpl never.

(** Cases on every [match] and [if] of the goal and the hypotheses. *)
Ltac cases := repeat (case_match; simplify_eq; simpl in *).

Section ServiceFacts.
Context {color_util : ColorUtil}.
Variable data : gmap string Profile.t.

Lemma resolve_brightness_step_none light params :
  no_brightness_step params ->
  resolve_brightness_step data light params = Ok params.
Proof.
  intros [Hstep Hpct]. unfold resolve_brightness_step.
  rewrite Hstep, Hpct. by rewrite andb_false_r.
Qed.

(** A profile never touches [white], and never replaces a brightness. *)
Lemma apply_profile_white name params :
  ATTR_WHITE (apply_profile data name params) = ATTR_WHITE params.
Proof. rewrite apply_profile_fields. reflexivity. Qed.

Lemma apply_profile_brightness name params b :
  ATTR_BRIGHTNESS params = Some b ->
  ATTR_BRIGHTNESS (apply_profile data name params) = Some b.
Proof. intros Hb. rewrite apply_profile_fields. simpl. by rewrite Hb. Qed.

Lemma apply_default_for_white state_on id params :
  ATTR_WHITE (apply_default_for data state_on id params) = ATTR_WHITE params.
Proof.
  unfold apply_default_for, setdefault_TRANSITION.
  destruct (data !! _) as [profile|]; [|done].
  destruct (negb state_on || is_empty params); [apply apply_profile_white|].
  destruct (Profile.transition profile); [|done].
  by destruct (is_not_None (ATTR_TRANSITION params)).
Qed.

Lemma apply_default_for_brightness state_on id params b :
  ATTR_BRIGHTNESS params = Some b ->
  ATTR_BRIGHTNESS (apply_default_for data state_on id params) = Some b.
Proof.
  intros Hb. unfold apply_default_for, setdefault_TRANSITION.
  destruct (data !! _) as [profile|]; [|done].
  destruct (negb state_on || is_empty params);
    [by apply apply_profile_brightness|].
  destruct (Profile.transition profile); [|done].
  by destruct (is_not_None (ATTR_TRANSITION params)).
Qed.

Lemma apply_default_profile_white light params :
  ATTR_WHITE (apply_default_profile data light params) = ATTR_WHITE params.
Proof.
  unfold apply_default_profile, apply_default.
  destruct (_ || _); [|done]. simpl.
  by rewrite !apply_default_for_white.
Qed.

Lemma apply_default_profile_brightness light params b :
  ATTR_BRIGHTNESS params = Some b ->
  ATTR_BRIGHTNESS (apply_default_profile data light params) = Some b.
Proof.
  intros Hb. unfold apply_default_profile, apply_default.
  destruct (_ || _); [|done]. simpl.
  by apply apply_default_for_brightness, apply_default_for_brightness.
Qed.

(** The color stages leave [white] and [brightness] alone. *)
Lemma convert_legacy_rgbw_frame light params :
  ATTR_WHITE (convert_legacy_rgbw light params) = ATTR_WHITE params
  /\ ATTR_BRIGHTNESS (convert_legacy_rgbw light params) = ATTR_BRIGHTNESS params.
Proof. unfold convert_legacy_rgbw. cases; done. Qed.

Lemma emulate_color_temp_frame light params params' :
  emulate_color_temp light params = Ok params' ->
  ATTR_WHITE params' = ATTR_WHITE params
  /\ ATTR_BRIGHTNESS params' = ATTR_BRIGHTNESS params.
Proof. unfold emulate_color_temp, to_rgbww. intros Hok. cases; done. Qed.

(** The emulation can only fail for want of a brightness. *)
Lemma emulate_color_temp_returns light params :
  ATTR_COLOR_TEMP params = None
  \/ fill (ATTR_BRIGHTNESS params) (brightness light) ≠ None ->
  exists params', emulate_color_temp light params = Ok params'.
Proof.
  unfold emulate_color_temp, to_rgbww, fill. intros Hwith.
  destruct (ATTR_COLOR_TEMP params) as [color_temp|]; [|by eexists].
  destruct Hwith as [|Hwith]; [done|].
  repeat (case_match; simplify_eq/=); eauto; done.
Qed.

Lemma convert_color_frame light params :
  ATTR_WHITE (convert_color light params) = ATTR_WHITE params
  /\ ATTR_BRIGHTNESS (convert_color light params) = ATTR_BRIGHTNESS params.
Proof.
  unfold convert_color, convert_color_legacy, convert_hs_color,
    convert_rgb_color, convert_xy_color, convert_rgbw_color,
    convert_rgbww_color.
  cases; simplify_eq; done.
Qed.

End ServiceFacts.

(** ** Frames of the profile defaults and of the filter *)

Lemma same_but_profile_keys_refl params : same_but_profile_keys params params.
Proof. unfold same_but_profile_keys. by destruct params. Qed.

Lemma same_but_profile_keys_trans p1 p2 p3 :
  same_but_profile_keys p1 p2 -> same_but_profile_keys p2 p3 ->
  same_but_profile_keys p1 p3.
Proof.
  unfold same_but_profile_keys. intros H12 H23.
  rewrite H23 at 1. rewrite H12 at 1. by destruct p1.
Qed.

Lemma apply_profile_same_but_profile_keys (data : gmap string Profile.t)
    name params :
  same_but_profile_keys params (apply_profile data name params).
Proof.
  unfold same_but_profile_keys. rewrite apply_profile_fields. by destruct params.
Qed.

Lemma apply_default_for_same_but_profile_keys (data : gmap string Profile.t)
    state_on id params :
  same_but_profile_keys params (apply_default_for data state_on id params).
Proof.
  unfold apply_default_for.
  destruct (data !! _) as [profile|]; [|apply same_but_profile_keys_refl].
  destruct (negb state_on || is_empty params);
    [apply apply_profile_same_but_profile_keys|].
  destruct (Profile.transition profile); [|apply same_but_profile_keys_refl].
  unfold setdefault_TRANSITION, same_but_profile_keys.
  destruct params. simpl. by destruct ATTR_TRANSITION0.
Qed.

Lemma apply_default_same_but_profile_keys (data : gmap string Profile.t)
    id state_on params :
  same_but_profile_keys params (apply_default data id state_on params).
Proof.
  unfold apply_default. simpl.
  eapply same_but_profile_keys_trans;
    apply apply_default_for_same_but_profile_keys.
Qed.

Lemma apply_default_profile_same_but_profile_keys
    (data : gmap string Profile.t) light params :
  same_but_profile_keys params (apply_default_profile data light params).
Proof.
  unfold apply_default_profile.
  destruct (_ || _); [apply apply_default_same_but_profile_keys|].
  apply same_but_profile_keys_refl.
Qed.

(** While the light is on, the defaults give a non-empty request nothing but
    a transition. *)
Lemma apply_default_for_on_hs (data : gmap string Profile.t) id params :
  is_empty params = false ->
  ATTR_HS_COLOR (apply_default_for data true id params) = ATTR_HS_COLOR params
  /\ is_empty (apply_default_for data true id params) = false.
Proof.
  intros Hne. unfold apply_default_for. rewrite Hne. simpl.
  destruct (data !! _) as [profile|]; [|done].
  destruct (Profile.transition profile); [|done].
  unfold setdefault_TRANSITION.
  destruct (ATTR_TRANSITION params) eqn:Ht; simpl; [done|].
  split; [done|]. unfold is_empty. simpl. by rewrite ?orb_true_r.
Qed.

Lemma apply_default_profile_on_hs (data : gmap string Profile.t) light params :
  is_on light = true ->
  is_empty params = false ->
  ATTR_HS_COLOR (apply_default_profile data light params) = ATTR_HS_COLOR params.
Proof.
  intros Hon Hne. unfold apply_default_profile, apply_default.
  rewrite Hon. destruct (_ || _); [|done]. simpl.
  destruct (apply_default_for_on_hs data (entity_id light) params Hne)
    as [Hhs Hne'].
  destruct (apply_default_for_on_hs data "group.all_lights" _ Hne') as [-> _].
  exact Hhs.
Qed.

Lemma pop_unless_set {A} (get : Params -> option A)
    (set : option A -> Params -> Params) supported params :
  (forall p, set (get p) p = p) ->
  pop_unless supported (set None) params
  = set (if supported then get params else None) params.
Proof. intros Hset. unfold pop_unless. by destruct supported. Qed.

Lemma filter_turn_on_params_fields light params :
  filter_turn_on_params light params = filtered_for light params.
Proof.
  unfold filter_turn_on_params, filtered_for. cbv zeta.
  rewrite (pop_unless_set ATTR_EFFECT set_EFFECT) by by intros [].
  rewrite (pop_unless_set ATTR_FLASH set_FLASH) by by intros [].
  rewrite (pop_unless_set ATTR_TRANSITION set_TRANSITION) by by intros [].
  rewrite (pop_unless_set ATTR_WHITE_VALUE set_WHITE_VALUE) by by intros [].
  rewrite (pop_unless_set ATTR_BRIGHTNESS set_BRIGHTNESS) by by intros [].
  rewrite (pop_unless_set ATTR_COLOR_TEMP set_COLOR_TEMP) by by intros [].
  rewrite (pop_unless_set ATTR_HS_COLOR set_HS_COLOR) by by intros [].
  rewrite (pop_unless_set ATTR_RGB_COLOR set_RGB_COLOR) by by intros [].
  rewrite (pop_unless_set ATTR_RGBW_COLOR set_RGBW_COLOR) by by intros [].
  rewrite (pop_unless_set ATTR_RGBWW_COLOR set_RGBWW_COLOR) by by intros [].
  rewrite (pop_unless_set ATTR_WHITE set_WHITE) by by intros [].
  rewrite (pop_unless_set ATTR_XY_COLOR set_XY_COLOR) by by intros [].
  by destruct params.
Qed.

Section Dispatch.
Context {color_util : ColorUtil}.
Variable data : gmap string Profile.t.

Lemma is_zero_true value : is_zero value = true <-> value = Some 0.
Proof.
  destruct value as [n|]; simpl; [|split; congruence].
  rewrite Z.eqb_eq. split; congruence.
Qed.

Lemma override_white_fields light params :
  let params' := override_white light params in
  (ATTR_WHITE params' = ATTR_WHITE params
   /\ ATTR_BRIGHTNESS params' = ATTR_BRIGHTNESS params)
  \/ (truthy (supported_color_modes light) = true
      /\ mode_in WHITE (default ∅ (supported_color_modes light)) = true
      /\ ATTR_WHITE params ≠ None
      /\ ATTR_BRIGHTNESS params ≠ None
      /\ ATTR_WHITE params' = ATTR_BRIGHTNESS params
      /\ ATTR_BRIGHTNESS params' = None).
Proof.
  unfold override_white.
  destruct (truthy _) eqn:Ht; simpl; [|by left].
  destruct (ATTR_WHITE params) as [w|] eqn:Hw; simpl; [|by left].
  destruct (mode_in WHITE _) eqn:Hm; simpl; [|by left].
  destruct (ATTR_BRIGHTNESS params) as [b|] eqn:Hb; simpl.
  - right. repeat split; congruence.
  - left. by rewrite Hb.
Qed.

Lemma remove_white_value_frame light params :
  ATTR_WHITE (remove_white_value light params) = ATTR_WHITE params
  /\ ATTR_BRIGHTNESS (remove_white_value light params) = ATTR_BRIGHTNESS params.
Proof. unfold remove_white_value. by destruct (truthy _). Qed.

(** Without a brightness step the handler goes straight to the defaults. *)
Lemma normalize_no_step light call_params :
  no_brightness_step call_params ->
  normalize data light call_params
  = (params ←
       emulate_color_temp light
         (convert_legacy_rgbw light
            (apply_default_profile data light call_params));
     Ok (remove_white_value light
           (override_white light (convert_color light params)))).
Proof.
  intros Hstep. unfold normalize.
  by rewrite (resolve_brightness_step_none data light call_params Hstep).
Qed.

(** The parameters before the white override, for a request without a
    brightness step: [white] is the requested one, and a requested
    brightness is still there. *)
Lemma before_override light call_params params :
  no_brightness_step call_params ->
  normalize data light call_params = Ok params ->
  exists before,
    params = remove_white_value light (override_white light before)
    /\ ATTR_WHITE before = ATTR_WHITE call_params
    /\ (forall b, ATTR_BRIGHTNESS call_params = Some b ->
          ATTR_BRIGHTNESS before = Some b).
Proof.
  intros Hstep. rewrite (normalize_no_step light call_params Hstep).
  destruct (emulate_color_temp light _) as [emulated|] eqn:Hemulated;
    simpl; [|done].
  intros Hok. injection Hok as <-.
  eexists. split; [reflexivity|].
  destruct (convert_color_frame light emulated) as [-> ->].
  destruct (emulate_color_temp_frame light _ emulated Hemulated) as [-> ->].
  destruct (convert_legacy_rgbw_frame light
              (apply_default_profile data light call_params))
    as [-> ->].
  split.
  - apply apply_default_profile_white.
  - intros b. apply apply_default_profile_brightness.
Qed.

(** A request with a brightness and without a step is always normalized. *)
Lemma normalize_returns light call_params b :
  no_brightness_step call_params ->
  ATTR_BRIGHTNESS call_params = Some b ->
  exists params, normalize data light call_params = Ok params.
Proof.
  intros Hstep Hb. rewrite (normalize_no_step light call_params Hstep).
  destruct (emulate_color_temp_returns light
              (convert_legacy_rgbw light
                 (apply_default_profile data light call_params)))
    as [emulated ->]; [|by eexists].
  right.
  destruct (convert_legacy_rgbw_frame light
              (apply_default_profile data light call_params)) as [_ ->].
  by rewrite (apply_default_profile_brightness data light call_params b Hb).
Qed.

Lemma turn_off_kwargs light params :
  only_transition_and_flash (filter_turn_off_params light params).
Proof. unfold only_transition_and_flash, filter_turn_off_params. reflexivity. Qed.

(** C8. When the normalized parameters have a brightness of 0 or a white
    value of 0, the turn-on handler hands the call to the turn-off handler,
    which calls [async_turn_off] with nothing but [transition] and [flash];
    otherwise it calls [async_turn_on] with the filtered parameters.  In
    particular a turn-on request with [brightness] 0 (and no brightness step)
    always ends in [async_turn_off]. *)
Theorem zero_brightness_turns_off (light : LightEntity)
    (call_params params : Params) :
  normalize data light call_params = Ok params ->
  (ATTR_BRIGHTNESS params = Some 0 \/ ATTR_WHITE params = Some 0 ->
     async_handle_light_on_service data light call_params
     = Ok (async_handle_light_off_service data light call_params)
     /\ exists kwargs,
          async_handle_light_off_service data light call_params
          = async_turn_off kwargs
          /\ only_transition_and_flash kwargs)
  /\ (ATTR_BRIGHTNESS params ≠ Some 0 -> ATTR_WHITE params ≠ Some 0 ->
        async_handle_light_on_service data light call_params
        = Ok (async_turn_on (filter_turn_on_params light params)))
  /\ (no_brightness_step call_params ->
      ATTR_BRIGHTNESS call_params = Some 0 ->
        ATTR_BRIGHTNESS params = Some 0 \/ ATTR_WHITE params = Some 0).
Proof.
  intros Hnorm. unfold async_handle_light_on_service. rewrite Hnorm. simpl.
  split; [|split].
  - intros Hzero.
    assert (is_zero (ATTR_BRIGHTNESS params) || is_zero (ATTR_WHITE params)
            = true) as ->.
    { apply orb_true_iff. by rewrite !is_zero_true. }
    split; [reflexivity|]. eexists. split; [reflexivity|].
    apply turn_off_kwargs.
  - intros Hb Hw.
    assert (is_zero (ATTR_BRIGHTNESS params) || is_zero (ATTR_WHITE params)
            = false) as ->; [|reflexivity].
    apply orb_false_iff. split; apply not_true_iff_false;
      by rewrite is_zero_true.
  - intros Hstep Hb.
    destruct (before_override light call_params params Hstep Hnorm)
      as (before & -> & _ & Hbri).
    specialize (Hbri 0 Hb).
    destruct (remove_white_value_frame light (override_white light before))
      as [-> ->].
    destruct (override_white_fields light before)
      as [[_ ->] | (_ & _ & _ & _ & -> & _)]; auto.
Qed.

End Dispatch.

(** The request [{"brightness": 0}] to a light that supports brightness:
    the normalized brightness is 0 and the device is told to turn off. *)
Lemma zero_brightness_turns_off_witness :
  normalize (color_util := sample_color_util) ∅ (light_supporting {[ BRIGHTNESS ]})
    brightness_zero_request
  = Ok brightness_zero_request
  /\ async_handle_light_on_service (color_util := sample_color_util) ∅
       (light_supporting {[ BRIGHTNESS ]}) brightness_zero_request
     = Ok (async_turn_off no_params).
Proof.
  assert (Hnorm : normalize (color_util := sample_color_util) ∅
                    (light_supporting {[ BRIGHTNESS ]}) brightness_zero_request
                  = Ok brightness_zero_request) by (vm_compute; reflexivity).
  split; [exact Hnorm|].
  destruct (zero_brightness_turns_off (color_util := sample_color_util) ∅
              (light_supporting {[ BRIGHTNESS ]}) brightness_zero_request
              brightness_zero_request Hnorm) as [Hoff _].
  destruct (Hoff (or_introl eq_refl)) as [-> _].
  vm_compute. reflexivity.
Defined.

Section WhiteAndBrightness.
Context {color_util : ColorUtil}.
Variable data : gmap string Profile.t.

Lemma filter_turn_on_params_white light params :
  ATTR_WHITE (filter_turn_on_params light params)
  = if mode_in WHITE (_light_internal_supported_color_modes light)
    then ATTR_WHITE params else None.
Proof. by rewrite filter_turn_on_params_fields. Qed.

Lemma filter_turn_on_params_no_brightness light params :
  ATTR_BRIGHTNESS params = None ->
  ATTR_BRIGHTNESS (filter_turn_on_params light params) = None.
Proof.
  intros Hb. rewrite filter_turn_on_params_fields. unfold filtered_for.
  cbn [ATTR_BRIGHTNESS]. rewrite Hb. by case_match.
Qed.

(** C2, amended. A turn-on request with both [white] and an explicit
    [brightness] (and no brightness step), to a light whose declared set of
    color modes has [white]: the brightness wins.  The normalized parameters
    have the requested brightness under [white] and no [brightness] key; when
    that brightness is not 0 this is what [async_turn_on] is called with, and
    when it is 0 the call goes to the turn-off handler. *)
Theorem brightness_overrides_white (light : LightEntity) (call_params : Params)
    (modes : gset ColorMode) (w b : Z) :
  supported_color_modes light = Some modes ->
  WHITE ∈ modes ->
  ATTR_WHITE call_params = Some w ->
  ATTR_BRIGHTNESS call_params = Some b ->
  no_brightness_step call_params ->
  exists params,
    normalize data light call_params = Ok params
    /\ ATTR_WHITE params = Some b
    /\ ATTR_BRIGHTNESS params = None
    /\ (b ≠ 0 ->
        exists kwargs,
          async_handle_light_on_service data light call_params
          = Ok (async_turn_on kwargs)
          /\ ATTR_WHITE kwargs = Some b
          /\ ATTR_BRIGHTNESS kwargs = None)
    /\ (b = 0 ->
        async_handle_light_on_service data light call_params
        = Ok (async_handle_light_off_service data light call_params)).
Proof.
  intros Hmodes Hwhite Hw Hb Hstep.
  destruct (normalize_returns data light call_params b Hstep Hb)
    as [normalized Hnorm].
  destruct (before_override data light call_params normalized Hstep Hnorm)
    as (before & -> & Hw' & Hb').
  rewrite Hw in Hw'. specialize (Hb' b Hb).
  assert (Hover : ATTR_WHITE (override_white light before) = Some b
                  /\ ATTR_BRIGHTNESS (override_white light before) = None).
  { unfold override_white. rewrite Hmodes, Hw', Hb'. simpl.
    assert (set_truthy modes = true) as ->.
    { apply set_truthy_true. intros ->. by apply not_elem_of_empty in Hwhite. }
    assert (mode_in WHITE modes = true) as -> by by apply mode_in_true.
    simpl. done. }
  destruct (remove_white_value_frame light (override_white light before))
    as [Hrw Hrb].
  destruct Hover as [Hov_w Hov_b]. rewrite Hov_w in Hrw. rewrite Hov_b in Hrb.
  eexists. split; [exact Hnorm|]. split; [exact Hrw|]. split; [exact Hrb|].
  unfold async_handle_light_on_service. rewrite Hnorm. simpl.
  rewrite Hrw, Hrb. simpl. split.
  - intros Hne. apply Z.eqb_neq in Hne. rewrite Hne.
    eexists. split; [reflexivity|]. split.
    + rewrite filter_turn_on_params_white, Hrw.
      unfold _light_internal_supported_color_modes. rewrite Hmodes.
      assert (mode_in WHITE modes = true) as -> by by apply mode_in_true.
      done.
    + by apply filter_turn_on_params_no_brightness.
  - intros ->. reflexivity.
Qed.

End WhiteAndBrightness.

(** The request [{"white": 100, "brightness": 200}] to a light that declares
    [hs] and [white]: the device is called with [white] 200. *)
Lemma brightness_overrides_white_witness :
  exists kwargs,
    async_handle_light_on_service (color_util := sample_color_util) ∅
      (light_supporting {[ HS; WHITE ]}) white_and_brightness_request
    = Ok (async_turn_on kwargs)
    /\ ATTR_WHITE kwargs = Some 200
    /\ ATTR_BRIGHTNESS kwargs = None.
Proof.
  destruct (brightness_overrides_white (color_util := sample_color_util) ∅
              (light_supporting {[ HS; WHITE ]}) white_and_brightness_request
              {[ HS; WHITE ]} 100 200)
    as (params & _ & _ & _ & Hon & _).
  - reflexivity.
  - apply elem_of_union_r, elem_of_singleton. reflexivity.
  - reflexivity.
  - reflexivity.
  - split; reflexivity.
  - apply Hon. lia.
Defined.

(** C2 as stated fails: for the request [{"white": 100, "brightness": 200}]
    and a light that declares [hs] and [white] (no profiles stored), the
    command carries [white] 200, the requested brightness, and not the
    requested white level 100. *)
Lemma white_does_not_win :
  ATTR_WHITE white_and_brightness_request = Some 100
  /\ ATTR_BRIGHTNESS white_and_brightness_request = Some 200
  /\ forall color_util : ColorUtil,
       async_handle_light_on_service ∅ (light_supporting {[ HS; WHITE ]})
         white_and_brightness_request
       = Ok (async_turn_on (set_WHITE (Some 200) no_params)).
Proof.
  split; [reflexivity|]. split; [reflexivity|].
  intros color_util. vm_compute. reflexivity.
Qed.

(** ** Brightness steps *)

Lemma clamp_0_255_max_min x : Z.max 0 (Z.min 255 x) = clamp_0_255 x.
Proof.
  unfold clamp_0_255.
  destruct (Z.ltb_spec x 0), (Z.ltb_spec 255 x); lia.
Qed.

Lemma clamp_0_255_range x : 0 <= clamp_0_255 x <= 255.
Proof.
  unfold clamp_0_255.
  destruct (Z.ltb_spec x 0), (Z.ltb_spec 255 x); lia.
Qed.

Lemma has_step_not_empty params :
  ATTR_BRIGHTNESS_STEP params ≠ None \/ ATTR_BRIGHTNESS_STEP_PCT params ≠ None ->
  is_empty params = false.
Proof.
  destruct params. unfold is_empty. simpl.
  intros [Hs | Hs]; apply negb_false_iff.
  - destruct ATTR_BRIGHTNESS_STEP0; [|done]. simpl.
    by rewrite ?orb_true_r.
  - destruct ATTR_BRIGHTNESS_STEP_PCT0; [|done]. simpl.
    by rewrite ?orb_true_r.
Qed.

Section BrightnessStep.
Context {color_util : ColorUtil}.
Variable data : gmap string Profile.t.

(** The alternatives leave a brightness alone unless a percentage is given. *)
Lemma preprocess_keeps_brightness params params' b :
  preprocess_turn_on_alternatives data params = Ok params' ->
  ATTR_BRIGHTNESS params = Some b ->
  ATTR_BRIGHTNESS_PCT params = None ->
  ATTR_BRIGHTNESS params' = Some b.
Proof.
  unfold preprocess_turn_on_alternatives. intros Hpre Hb Hpct.
  destruct (_ || _); [by simplify_eq|].
  set (p1 := match ATTR_PROFILE params with
             | Some profile => apply_profile data profile (set_PROFILE None params)
             | None => params
             end) in *.
  assert (H1 : ATTR_BRIGHTNESS p1 = Some b /\ ATTR_BRIGHTNESS_PCT p1 = None).
  { unfold p1. destruct (ATTR_PROFILE params); [|done]. split.
    - by apply apply_profile_brightness.
    - by rewrite apply_profile_fields. }
  clearbody p1. destruct H1 as [Hb1 Hpct1].
  set (p2 := match ATTR_COLOR_NAME p1 with
             | Some color_name => _
             | None => p1
             end) in *.
  assert (H2 : ATTR_BRIGHTNESS p2 = Some b /\ ATTR_BRIGHTNESS_PCT p2 = None).
  { unfold p2. destruct (ATTR_COLOR_NAME p1); [|done].
    by destruct (color_name_to_rgb _). }
  clearbody p2. destruct H2 as [Hb2 Hpct2].
  destruct (ATTR_KELVIN p2) as [kelvin|]; simpl in Hpre.
  - destruct (kelvin_to_mired kelvin) as [mired|]; simpl in Hpre; [|done].
    destruct (py_int mired) as [color_temp|]; simpl in Hpre; [|done].
    rewrite Hpct2 in Hpre. by simplify_eq.
  - rewrite Hpct2 in Hpre. by simplify_eq.
Qed.

(** Where the light has a brightness to add to (its own when it is on, 0
    when it is off), a turn-on request with [brightness_step], or else with
    [brightness_step_pct], is resolved against it: the brightness becomes
    that brightness plus the step (for a percentage, plus
    [round(step_pct / 100 * 255)]), clamped to 0..255, the step key is
    removed, and only then are the alternatives (profile, color name,
    kelvin, percentage) processed, followed by the rest of the handler.
    When the request was preprocessed before the handler ran, nothing was
    done to it. *)
Lemma brightness_step_resolved (light : LightEntity) (params : Params)
    (current : Z) :
  current_brightness light = Some current ->
  ATTR_BRIGHTNESS_STEP params ≠ None \/ ATTR_BRIGHTNESS_STEP_PCT params ≠ None ->
  resolve_brightness_step data light params
  = (step ← requested_step params;
     preprocess_turn_on_alternatives data
       (set_BRIGHTNESS (Some (clamp_0_255 (current + step))) (pop_step params)))
  /\ (forall step resolved,
        requested_step params = Ok step ->
        resolve_brightness_step data light params = Ok resolved ->
        ATTR_BRIGHTNESS_PCT params = None ->
        ATTR_BRIGHTNESS resolved = Some (clamp_0_255 (current + step))
        /\ 0 <= clamp_0_255 (current + step) <= 255)
  /\ preprocess_data data params = Ok params
  /\ normalize data light params
     = (resolved ← resolve_brightness_step data light params;
        after_step_resolution data light resolved).
Proof.
  intros Hcur Hstep.
  assert (Hres : resolve_brightness_step data light params
    = (step ← requested_step params;
       preprocess_turn_on_alternatives data
         (set_BRIGHTNESS (Some (clamp_0_255 (current + step)))
            (pop_step params)))).
  { unfold resolve_brightness_step, requested_step, pop_step.
    rewrite (has_step_not_empty params Hstep).
    unfold current_brightness in Hcur. rewrite Hcur.
    destruct (ATTR_BRIGHTNESS_STEP params) as [step|];
      [|destruct (ATTR_BRIGHTNESS_STEP_PCT params) as [step_pct|]]; simpl.
    - by rewrite clamp_0_255_max_min.
    - destruct (py_round _) as [step|]; simpl; [|done].
      by rewrite clamp_0_255_max_min.
    - by destruct Hstep. }
  split; [exact Hres|]. split; [|split; [|reflexivity]].
  - intros step resolved Hdelta Hresolved Hpct.
    split; [|apply clamp_0_255_range].
    rewrite Hres, Hdelta in Hresolved. simpl in Hresolved.
    eapply preprocess_keeps_brightness; [exact Hresolved|..];
      unfold pop_step; destruct (ATTR_BRIGHTNESS_STEP params);
      by destruct params.
  - unfold preprocess_data, preprocess_turn_on_alternatives.
    destruct (ATTR_BRIGHTNESS_STEP params), (ATTR_BRIGHTNESS_STEP_PCT params);
      try done. by destruct Hstep.
Qed.

(** A light that is on and reports no brightness gives the step nothing to
    be added to: [None + step] raises [TypeError]. *)
Lemma brightness_step_without_brightness light params step :
  is_on light = true ->
  brightness light = None ->
  ATTR_BRIGHTNESS_STEP params = Some step ->
  resolve_brightness_step data light params = Raise TypeError.
Proof.
  intros Hon Hnone Hstep. unfold resolve_brightness_step.
  rewrite has_step_not_empty by (left; congruence).
  by rewrite Hstep, Hon, Hnone.
Qed.

(** C7. The handler adds the step to [light.brightness] whenever the light
    is on, and to 0 when it is off.  A light that is on and reports no
    brightness (the default of the attribute) has [None] there: for every
    request with a [brightness_step], or with a [brightness_step_pct] whose
    rounding succeeds, the addition raises [TypeError], no brightness is
    resolved and the device is not called. *)
Theorem brightness_step_fails_without_brightness (light : LightEntity)
    (params : Params) :
  is_on light = true ->
  brightness light = None ->
  (ATTR_BRIGHTNESS_STEP params ≠ None
   \/ exists step_pct step,
        ATTR_BRIGHTNESS_STEP_PCT params = Some step_pct
        /\ py_round (step_pct / 100 * 255)%float = Ok step) ->
  current_brightness light = None
  /\ resolve_brightness_step data light params = Raise TypeError
  /\ normalize data light params = Raise TypeError
  /\ async_handle_light_on_service data light params = Raise TypeError.
Proof.
  intros Hon Hnone Hstep.
  assert (Hresolve : resolve_brightness_step data light params
                     = Raise TypeError).
  { unfold resolve_brightness_step.
    rewrite has_step_not_empty, Hon, Hnone.
    - destruct (ATTR_BRIGHTNESS_STEP params) as [step|] eqn:Hs; simpl;
        [done|].
      destruct Hstep as [|(step_pct & step & Hpct & Hround)]; [done|].
      rewrite Hpct. simpl. by rewrite Hround.
    - destruct Hstep as [|(step_pct & step & Hpct & _)]; [by left|].
      right. by rewrite Hpct. }
  split; [|split; [exact Hresolve|split]].
  - unfold current_brightness. by rewrite Hon.
  - unfold normalize. by rewrite Hresolve.
  - unfold async_handle_light_on_service, normalize. by rewrite Hresolve.
Qed.

End BrightnessStep.

(** The light is on at brightness 250 and the request is
    [{"brightness_step": 50}]: the brightness is resolved to exactly 255. *)
Lemma brightness_step_resolved_witness :
  current_brightness bright_light = Some 250
  /\ requested_step step_request = Ok 50
  /\ resolve_brightness_step (color_util := sample_color_util) ∅ bright_light
       step_request
     = Ok (set_BRIGHTNESS (Some 255) no_params).
Proof.
  split; [reflexivity|]. split; [reflexivity|].
  destruct (brightness_step_resolved (color_util := sample_color_util) ∅
              bright_light step_request 250 eq_refl)
    as [-> _].
  - left. discriminate.
  - vm_compute. reflexivity.
Defined.

(** Rounding is to the nearest integer, ties to the even one, as Python's
    [round]. *)
Example py_round_ties :
  py_round 0.5 = Ok 0 /\ py_round 1.5 = Ok 2 /\ py_round 2.5 = Ok 2
  /\ py_round (-127.5) = Ok (-128) /\ py_round 25.75 = Ok 26
  /\ py_round nan = Raise ValueError /\ py_round infinity = Raise OverflowError.
Proof. repeat split; reflexivity. Qed.

(** A step of 10 percent is [round(10 / 100 * 255) = round(25.5) = 26]
    levels; the light is off, so it is added to 0. *)
Example brightness_step_pct_example :
  resolve_brightness_step (color_util := sample_color_util) ∅ base_light
    step_pct_request
  = Ok (set_BRIGHTNESS (Some 26) no_params).
Proof. vm_compute. reflexivity. Qed.

(** The request [{"brightness_step": 50}] to a light that is on and reports
    no brightness: the handler raises [TypeError]. *)
Lemma brightness_step_fails_without_brightness_witness :
  is_on on_off_light = true
  /\ brightness on_off_light = None
  /\ ATTR_BRIGHTNESS_STEP step_request = Some 50
  /\ async_handle_light_on_service (color_util := sample_color_util) ∅
       on_off_light step_request
     = Raise TypeError.
Proof.
  split; [reflexivity|]. split; [reflexivity|]. split; [reflexivity|].
  destruct (brightness_step_fails_without_brightness
              (color_util := sample_color_util) ∅ on_off_light step_request)
    as (_ & _ & _ & Hraises).
  - reflexivity.
  - reflexivity.
  - left. discriminate.
  - exact Hraises.
Defined.

(** The same step for a light that is on without a brightness. *)
Example brightness_step_type_error :
  resolve_brightness_step (color_util := sample_color_util) ∅ on_off_light
    step_request
  = Raise TypeError.
Proof. vm_compute. reflexivity. Qed.

(** From here on the predicates on sets of modes stay folded under [simpl]. *)

Arguments mode_in : simpl never.
Arguments set_truthy : simpl never.
Arguments color_supported : simpl never.
Arguments brightness_supported : simpl never.

(** ** The conversion cascade *)

Section Cascade.
Context {color_util : ColorUtil}.
Variable data : gmap string Profile.t.

(** The conversion step on a request with exactly one color, in a
    representation the light does not declare: the color's key is removed
    and the color is set, converted, under the key of the first supported
    mode in the order that belongs to the requested representation. *)
Lemma convert_color_unsupported (light : LightEntity)
    (params : Params) (modes : gset ColorMode) (color : Color) :
  supported_color_modes light = Some modes ->
  modes ≠ ∅ ->
  only_color color params ->
  mode_of color ∉ modes ->
  convert_color light params
  = match first_supported (target_preference (mode_of color)) modes with
    | Some target =>
        put_color (convert_to light color target)
          (pop_color (mode_of color) params)
    | None => pop_color (mode_of color) params
    end.
Proof.
  intros Hmodes Hne Honly Hnot.
  apply set_truthy_true in Hne. apply mode_in_false in Hnot.
  pose proof (Honly HS) as Hhs. pose proof (Honly XY) as Hxy.
  pose proof (Honly RGB) as Hrgb. pose proof (Honly RGBW) as Hrgbw.
  pose proof (Honly RGBWW) as Hrgbww. clear Honly.
  unfold convert_color. rewrite Hmodes, Hne. simpl.
  unfold convert_hs_color, convert_rgb_color, convert_xy_color,
    convert_rgbw_color, convert_rgbww_color, first_supported.
  destruct params. simpl in *.
  destruct color as [[h s]|[x y]|[[r g] b]|[[[r g] b] w]|[[[[r g] b] cw] ww]];
    simpl in *;
    destruct ATTR_HS_COLOR0, ATTR_XY_COLOR0, ATTR_RGB_COLOR0,
      ATTR_RGBW_COLOR0, ATTR_RGBWW_COLOR0; simplify_eq/=;
    rewrite Hnot; simpl;
    repeat match goal with
      | |- context [let '(_, _) := ?x in _] => destruct x as [[? ?] ?]
      end;
    repeat (destruct (mode_in _ modes); simpl; try reflexivity).
Qed.

(** A color in a representation the light declares is left as it is. *)
Lemma convert_color_supported (light : LightEntity) (params : Params)
    (modes : gset ColorMode) (color : Color) :
  supported_color_modes light = Some modes ->
  modes ≠ ∅ ->
  only_color color params ->
  mode_of color ∈ modes ->
  convert_color light params = params.
Proof.
  intros Hmodes Hne Honly Hin.
  apply set_truthy_true in Hne. apply mode_in_true in Hin.
  pose proof (Honly HS) as Hhs. pose proof (Honly XY) as Hxy.
  pose proof (Honly RGB) as Hrgb. pose proof (Honly RGBW) as Hrgbw.
  pose proof (Honly RGBWW) as Hrgbww. clear Honly.
  unfold convert_color. rewrite Hmodes, Hne. simpl.
  unfold convert_hs_color, convert_rgb_color, convert_xy_color,
    convert_rgbw_color, convert_rgbww_color.
  destruct params. simpl in *.
  destruct color as [[h s]|[x y]|[[r g] b]|[[[r g] b] w]|[[[[r g] b] cw] ww]];
    simpl in *;
    destruct ATTR_HS_COLOR0, ATTR_XY_COLOR0, ATTR_RGB_COLOR0,
      ATTR_RGBW_COLOR0, ATTR_RGBWW_COLOR0; simplify_eq/=;
    rewrite Hin; reflexivity.
Qed.

(** A request without a color passes the conversion step unchanged. *)
Lemma convert_color_none (light : LightEntity) (params : Params) :
  (forall mode, color_at mode params = None) ->
  convert_color light params = params.
Proof.
  intros Hnone.
  pose proof (Hnone HS) as Hhs. pose proof (Hnone XY) as Hxy.
  pose proof (Hnone RGB) as Hrgb. pose proof (Hnone RGBW) as Hrgbw.
  pose proof (Hnone RGBWW) as Hrgbww. clear Hnone.
  unfold convert_color, convert_color_legacy, convert_hs_color,
    convert_rgb_color, convert_xy_color, convert_rgbw_color,
    convert_rgbww_color.
  destruct params. simpl in *.
  destruct ATTR_HS_COLOR0, ATTR_XY_COLOR0, ATTR_RGB_COLOR0,
    ATTR_RGBW_COLOR0, ATTR_RGBWW_COLOR0; simplify_eq/=.
  by repeat case_match.
Qed.

Lemma first_supported_listed preference (modes : gset ColorMode) target :
  first_supported preference modes = Some target ->
  target ∈ preference /\ target ∈ modes.
Proof.
  unfold first_supported. intros Hfind.
  apply List.find_some in Hfind as [Hin Hmode]. split.
  - by apply list_elem_of_In.
  - by apply mode_in_true.
Qed.

(** A color converted to one of the targets of its representation is in the
    representation of the target. *)
Lemma mode_of_convert_to light color target :
  target ∈ target_preference (mode_of color) ->
  mode_of (convert_to light color target) = target
  /\ target ≠ mode_of color.
Proof.
  intros Hin.
  assert (Hcases : target = HS \/ target = XY \/ target = RGB
                   \/ target = RGBW \/ target = RGBWW).
  { destruct color; simpl in Hin;
      repeat (apply elem_of_cons in Hin as [->|Hin]; [tauto|]);
      by apply elem_of_nil in Hin. }
  destruct color as [[h s]|[x y]|[[r g] b]|[[[r g] b] w]|[[[[r g] b] cw] ww]];
    destruct Hcases as [->|[->|[->|[->| ->]]]]; simpl in *;
    repeat match goal with
      | |- context [let '(_, _) := ?x in _] => destruct x as [[? ?] ?]
      end;
    try (split; [reflexivity|discriminate]);
    exfalso;
    repeat (apply elem_of_cons in Hin as [Hin|Hin]; [discriminate|]);
    by apply elem_of_nil in Hin.
Qed.

(** The one color of a request, replaced by a color of another
    representation, is again the one color of the request. *)
Lemma only_color_replaced params color color' :
  only_color color params ->
  mode_of color' ≠ mode_of color ->
  only_color color' (put_color color' (pop_color (mode_of color) params)).
Proof.
  intros Honly Hne mode.
  pose proof (Honly HS) as Hhs. pose proof (Honly XY) as Hxy.
  pose proof (Honly RGB) as Hrgb. pose proof (Honly RGBW) as Hrgbw.
  pose proof (Honly RGBWW) as Hrgbww. clear Honly.
  destruct params. simpl in *.
  destruct color, color'; try done; simpl in *;
    destruct ATTR_HS_COLOR0, ATTR_XY_COLOR0, ATTR_RGB_COLOR0,
      ATTR_RGBW_COLOR0, ATTR_RGBWW_COLOR0; simplify_eq/=;
    by destruct mode.
Qed.

Lemma only_color_removed params color :
  only_color color params ->
  forall mode, color_at mode (pop_color (mode_of color) params) = None.
Proof.
  intros Honly mode.
  pose proof (Honly HS) as Hhs. pose proof (Honly XY) as Hxy.
  pose proof (Honly RGB) as Hrgb. pose proof (Honly RGBW) as Hrgbw.
  pose proof (Honly RGBWW) as Hrgbww. clear Honly.
  destruct params. simpl in *.
  destruct color; simpl in *;
    destruct ATTR_HS_COLOR0, ATTR_XY_COLOR0, ATTR_RGB_COLOR0,
      ATTR_RGBW_COLOR0, ATTR_RGBWW_COLOR0; simplify_eq/=;
    by destruct mode.
Qed.

(** The conversion step, on a request with one color that the light's
    declared modes lack, in terms of the colors the result holds. *)
Lemma convert_color_colors light params modes color :
  supported_color_modes light = Some modes ->
  modes ≠ ∅ ->
  only_color color params ->
  mode_of color ∉ modes ->
  colors_are (converted_color light modes color) (convert_color light params)
  /\ (forall color', converted_color light modes color = Some color' ->
        mode_of color' ∈ modes).
Proof.
  intros Hmodes Hne Honly Hnot.
  rewrite (convert_color_unsupported light params modes color) by done.
  unfold converted_color.
  destruct (first_supported _ modes) as [target|] eqn:Hfirst; simpl.
  - apply first_supported_listed in Hfirst as [Hlisted Hin].
    destruct (mode_of_convert_to light color target Hlisted) as [Hmode Hother].
    split.
    + apply only_color_replaced; [done|]. by rewrite Hmode.
    + intros color' [= <-]. by rewrite Hmode.
  - split; [by apply only_color_removed|done].
Qed.

(** The stages around the conversion leave the colors alone. *)
Lemma color_at_override_white light params mode :
  color_at mode (override_white light params) = color_at mode params.
Proof.
  unfold override_white. repeat case_match; try done; by destruct mode.
Qed.

Lemma color_at_remove_white_value light params mode :
  color_at mode (remove_white_value light params) = color_at mode params.
Proof.
  unfold remove_white_value. case_match; [|done]. by destruct mode.
Qed.

Lemma convert_legacy_rgbw_declared light params modes :
  supported_color_modes light = Some modes ->
  modes ≠ ∅ ->
  convert_legacy_rgbw light params = params.
Proof.
  intros Hmodes Hne. apply set_truthy_true in Hne.
  unfold convert_legacy_rgbw. rewrite Hmodes. simpl. rewrite Hne.
  destruct (ATTR_RGBW_COLOR params); [|done].
  by rewrite andb_false_r.
Qed.

Lemma color_at_defaults light params mode :
  defaults_add_no_color data light params ->
  color_at mode (apply_default_profile data light params)
  = color_at mode params.
Proof.
  unfold defaults_add_no_color. intros Hhs.
  pose proof (apply_default_profile_same_but_profile_keys data light params)
    as Hsame.
  unfold same_but_profile_keys in Hsame. rewrite Hsame, Hhs.
  destruct params. by destruct mode.
Qed.

Lemma apply_default_profile_color_temp light params :
  ATTR_COLOR_TEMP (apply_default_profile data light params)
  = ATTR_COLOR_TEMP params.
Proof.
  pose proof (apply_default_profile_same_but_profile_keys data light params)
    as Hsame.
  unfold same_but_profile_keys in Hsame. rewrite Hsame. by destruct params.
Qed.

(** What the filter leaves of the colors, for a light that declares its
    modes. *)
Lemma color_at_filter light params modes mode :
  supported_color_modes light = Some modes ->
  color_at mode (filter_turn_on_params light params)
  = if mode_in mode modes then color_at mode params else None.
Proof.
  intros Hmodes. rewrite filter_turn_on_params_fields.
  unfold filtered_for, _light_internal_supported_color_modes.
  rewrite Hmodes.
  destruct mode; simpl; repeat case_match; done.
Qed.

Lemma colors_are_filter light params modes color :
  supported_color_modes light = Some modes ->
  colors_are color params ->
  (forall color', color = Some color' -> mode_of color' ∈ modes) ->
  colors_are color (filter_turn_on_params light params).
Proof.
  intros Hmodes Hcolors Hin. destruct color as [color|]; simpl in *.
  - intros mode. rewrite (color_at_filter light params modes mode Hmodes).
    rewrite (Hcolors mode). destruct (decide (mode = mode_of color)) as [->|].
    + pose proof (Hin color eq_refl) as Hmode.
      apply mode_in_true in Hmode. by rewrite Hmode.
    + by case_match.
  - intros mode. rewrite (color_at_filter light params modes mode Hmodes).
    rewrite (Hcolors mode). by case_match.
Qed.

Lemma override_white_none light params :
  ATTR_WHITE params = None -> override_white light params = params.
Proof.
  intros Hw. unfold override_white. rewrite Hw. simpl.
  by rewrite andb_false_r.
Qed.

Lemma handler_dispatch light call_params params :
  normalize data light call_params = Ok params ->
  async_handle_light_on_service data light call_params
  = Ok (dispatch data light call_params params).
Proof.
  intros Hnorm. unfold async_handle_light_on_service, dispatch.
  rewrite Hnorm. simpl. by case_match.
Qed.

(** C1, amended. A turn-on request with exactly one color and no color
    temperature (and no brightness step), to which the default profiles add
    no color, for a light that declares a non-empty set of color modes
    without the representation of the color.  The normalized parameters, and
    the parameters [async_turn_on] is called with, hold no color under the
    requested key and hold the color, converted, under the key of the first
    supported mode in the order that belongs to the requested
    representation: for hs: rgb, rgbw, rgbww, xy; for rgb: rgbw, rgbww, hs,
    xy; for xy: hs, rgb, rgbw, rgbww; for rgbw: rgb, rgbww, hs, xy; for
    rgbww: rgb, rgbw, hs, xy.  When none of them is supported they hold no
    color at all.  hs and xy convert into each other directly, every other
    conversion goes through RGB. *)
Theorem color_converted_to_first_supported (light : LightEntity)
    (call_params : Params) (modes : gset ColorMode) (color : Color) :
  supported_color_modes light = Some modes ->
  modes ≠ ∅ ->
  only_color color call_params ->
  ATTR_COLOR_TEMP call_params = None ->
  no_brightness_step call_params ->
  defaults_add_no_color data light call_params ->
  mode_of color ∉ modes ->
  exists params,
    normalize data light call_params = Ok params
    /\ async_handle_light_on_service data light call_params
       = Ok (dispatch data light call_params params)
    /\ colors_are (converted_color light modes color) params
    /\ colors_are (converted_color light modes color)
         (filter_turn_on_params light params)
    /\ converted_color light modes color
       = match first_supported (target_preference (mode_of color)) modes with
         | Some target => Some (convert_to light color target)
         | None => None
         end.
Proof.
  intros Hmodes Hne Honly Htemp Hstep Hdefaults Hnot.
  set (defaults := apply_default_profile data light call_params).
  assert (Honly' : only_color color defaults).
  { intros mode. unfold defaults. rewrite color_at_defaults by done.
    apply Honly. }
  assert (Hnorm : normalize data light call_params
                  = Ok (remove_white_value light
                          (override_white light
                             (convert_color light defaults)))).
  { rewrite (normalize_no_step data light call_params Hstep).
    rewrite (convert_legacy_rgbw_declared light _ modes Hmodes Hne).
    unfold emulate_color_temp.
    by rewrite apply_default_profile_color_temp, Htemp. }
  destruct (convert_color_colors light defaults modes color
              Hmodes Hne Honly' Hnot) as [Hcolors Hin].
  assert (Hfinal : colors_are (converted_color light modes color)
                     (remove_white_value light
                        (override_white light
                           (convert_color light defaults)))).
  { destruct (converted_color light modes color) as [color'|]; simpl in *;
      intros mode;
      by rewrite color_at_remove_white_value, color_at_override_white. }
  eexists. split; [exact Hnorm|].
  split; [by apply handler_dispatch|].
  split; [exact Hfinal|].
  split; [by eapply colors_are_filter|].
  unfold converted_color. by destruct (first_supported _ modes).
Qed.

End Cascade.



(** A request with the hs color (0, 100) to a light that declares [xy] and
    [rgbw], with no profiles stored: rgbw comes first in the order for hs,
    and the device is called with the color as [rgbw_color] only. *)
Lemma color_converted_to_first_supported_witness :
  first_supported (target_preference HS) {[ XY; RGBW ]} = Some RGBW
  /\ async_handle_light_on_service (color_util := sample_color_util) ∅
       (light_supporting {[ XY; RGBW ]}) hs_request
     = Ok (async_turn_on (set_RGBW_COLOR (Some (255, 0, 0, 0)) no_params)).
Proof.
  split; [by vm_compute|].
  destruct (color_converted_to_first_supported
              (color_util := sample_color_util) ∅
              (light_supporting {[ XY; RGBW ]}) hs_request {[ XY; RGBW ]}
              (hs_of (0, 100)%float))
    as (params & Hnorm & Hcall & _).
  - reflexivity.
  - by vm_compute.
  - intros mode. by destruct mode.
  - reflexivity.
  - by split.
  - reflexivity.
  - by vm_compute.
  - rewrite Hcall. f_equal.
    assert (Hparams : normalize (color_util := sample_color_util) ∅
                        (light_supporting {[ XY; RGBW ]}) hs_request
                      = Ok (set_RGBW_COLOR (Some (255, 0, 0, 0)) no_params))
      by (by vm_compute).
    rewrite Hparams in Hnorm. injection Hnorm as <-.
    by vm_compute.
Defined.

(** C1 as stated fails: the light declares [xy] and [rgbw] and the request
    names an hs color.  In the claimed order xy comes before rgbw, so the
    claim has the color emitted as [xy_color]; the code, whatever the color
    helpers compute, emits [rgbw_color] (hs to RGB to rgbw) and no
    [xy_color]. *)
Lemma xy_not_preferred_over_rgbw :
  first_supported (claimed_preference HS) {[ XY; RGBW ]} = Some XY
  /\ first_supported claimed_order {[ XY; RGBW ]} = Some XY
  /\ forall color_util : ColorUtil,
       let params' := convert_color (light_supporting {[ XY; RGBW ]}) hs_request in
       ATTR_HS_COLOR params' = None
       /\ ATTR_XY_COLOR params' = None
       /\ ATTR_RGBW_COLOR params'
          = Some (let '(r, g, b) := color_hs_to_RGB 0 100 in
                  color_rgb_to_rgbw r g b).
Proof.
  split; [by vm_compute|]. split; [by vm_compute|].
  intros color_util params'. unfold params', convert_color. simpl.
  assert (set_truthy ({[ XY; RGBW ]} : gset ColorMode) = true) as ->
    by (by vm_compute).
  unfold convert_hs_color. simpl.
  assert (mode_in HS ({[ XY; RGBW ]} : gset ColorMode) = false) as ->
    by (by vm_compute).
  assert (mode_in RGB ({[ XY; RGBW ]} : gset ColorMode) = false) as ->
    by (by vm_compute).
  assert (mode_in RGBW ({[ XY; RGBW ]} : gset ColorMode) = true) as ->
    by (by vm_compute).
  simpl. by destruct (color_hs_to_RGB 0 100) as [[r g] b].
Qed.

(** ** Emulating a color temperature *)

Section ColorTemp.
Context {color_util : ColorUtil}.
Variable data : gmap string Profile.t.

(** The emulation step for a light whose declared modes lack
    [color_temp]. *)
Lemma emulate_color_temp_declared light params modes mireds :
  supported_color_modes light = Some modes ->
  COLOR_TEMP ∉ modes ->
  ATTR_COLOR_TEMP params = Some mireds ->
  emulate_color_temp light params
  = if mode_in RGBWW modes then
      rgbww_color ←
        to_rgbww mireds (fill (ATTR_BRIGHTNESS params) (brightness light))
          (min_mireds light) (max_mireds light);
      Ok (set_RGBWW_COLOR (Some rgbww_color) (set_COLOR_TEMP None params))
    else if color_supported (Some modes) then
      Ok (set_HS_COLOR
            (Some (color_temperature_to_hs
                     (color_temperature_mired_to_kelvin mireds)))
            (set_COLOR_TEMP None params))
    else Ok (set_COLOR_TEMP None params).
Proof.
  intros Hmodes Hnot Hct. apply mode_in_false in Hnot.
  unfold emulate_color_temp, _light_internal_supported_color_modes.
  rewrite Hmodes, Hct. simpl. rewrite Hnot. simpl.
  destruct (mode_in RGBWW modes) eqn:Hrgbww.
  - assert (set_truthy modes = true) as ->; [|done].
    apply set_truthy_true. intros ->. apply mode_in_true in Hrgbww.
    by apply not_elem_of_empty in Hrgbww.
  - by rewrite andb_false_r.
Qed.

(** A color put into a request that has none, in place of the color
    temperature. *)
Lemma only_color_put params color :
  (forall mode, color_at mode params = None) ->
  emulated_as (Some color) (put_color color (set_COLOR_TEMP None params)).
Proof.
  intros Hnone.
  pose proof (Hnone HS) as Hhs. pose proof (Hnone XY) as Hxy.
  pose proof (Hnone RGB) as Hrgb. pose proof (Hnone RGBW) as Hrgbw.
  pose proof (Hnone RGBWW) as Hrgbww. clear Hnone.
  destruct params. simpl in *.
  destruct ATTR_HS_COLOR0, ATTR_XY_COLOR0, ATTR_RGB_COLOR0,
    ATTR_RGBW_COLOR0, ATTR_RGBWW_COLOR0; simplify_eq/=.
  split; [by destruct color|].
  intros mode. by destruct color, mode.
Qed.

(** The stages after the emulation do not bring a color temperature back. *)
Lemma convert_color_color_temp light params :
  ATTR_COLOR_TEMP (convert_color light params) = ATTR_COLOR_TEMP params.
Proof.
  unfold convert_color, convert_color_legacy, convert_hs_color,
    convert_rgb_color, convert_xy_color, convert_rgbw_color,
    convert_rgbww_color.
  cases; simplify_eq; done.
Qed.

Lemma white_stages_color_temp light params :
  ATTR_COLOR_TEMP (remove_white_value light (override_white light params))
  = ATTR_COLOR_TEMP params.
Proof.
  unfold remove_white_value, override_white. by repeat case_match.
Qed.

Lemma emulated_as_white_stages light params color :
  emulated_as color params ->
  emulated_as color (remove_white_value light (override_white light params)).
Proof.
  intros [Htemp Hcolors]. split.
  - by rewrite white_stages_color_temp.
  - destruct color as [color|]; simpl in *; intros mode;
      by rewrite color_at_remove_white_value, color_at_override_white.
Qed.

Lemma emulated_as_filter light params modes color :
  supported_color_modes light = Some modes ->
  emulated_as color params ->
  (forall color', color = Some color' -> mode_of color' ∈ modes) ->
  emulated_as color (filter_turn_on_params light params).
Proof.
  intros Hmodes [Htemp Hcolors] Hin. split.
  - rewrite filter_turn_on_params_fields. unfold filtered_for.
    cbn [ATTR_COLOR_TEMP]. rewrite Htemp. by case_match.
  - by eapply colors_are_filter.
Qed.

(** A light with a color mode, but neither hs nor rgbww, has one of the
    targets an hs color is converted to. *)
Lemma hs_has_target (modes : gset ColorMode) :
  color_supported (Some modes) = true ->
  RGBWW ∉ modes ->
  HS ∉ modes ->
  first_supported (target_preference HS) modes ≠ None.
Proof.
  intros Hcolor Hrgbww Hhs.
  apply color_supported_true in Hcolor as (mode & Hin & Hmulti).
  unfold first_supported. simpl.
  destruct (mode_in RGB modes) eqn:Hrgb; [done|].
  destruct (mode_in RGBW modes) eqn:Hrgbw; [done|].
  destruct (mode_in RGBWW modes); [done|].
  destruct (mode_in XY modes) eqn:Hxy; [done|].
  apply mode_in_false in Hrgb, Hrgbw, Hxy.
  unfold multi_channel in Hmulti.
  destruct Hmulti as [->|[->|[->|[->| ->]]]]; done.
Qed.

(** C5, amended. A turn-on request with a color temperature and no color
    (and no brightness step), to which the default profiles add no color,
    for a light whose declared set of color modes lacks [color_temp].

    When the set has [rgbww] and a brightness is known (that of the request,
    else the one a default profile supplies, else that of the light), the
    normalized parameters and those of the device call hold no [color_temp],
    and as their one color the [rgbww_color] synthesized from the color
    temperature, that brightness and the light's min and max mireds.

    When the set has a color mode but not [rgbww], they hold no
    [color_temp], and as their one color the color temperature converted to
    Kelvin and then to hue/saturation: as [hs_color] when the set has [hs],
    and otherwise converted on to the first supported of rgb, rgbw and xy.

    For a light that declares [rgbww] only and the request [{"color_temp":
    300, "brightness": 200}], [async_turn_on] is called with the
    [rgbww_color] synthesized from 300 mireds and brightness 200, and
    without [color_temp]. *)
Theorem color_temp_emulated (light : LightEntity) (call_params : Params)
    (modes : gset ColorMode) (mireds : Z) :
  supported_color_modes light = Some modes ->
  COLOR_TEMP ∉ modes ->
  ATTR_COLOR_TEMP call_params = Some mireds ->
  (forall mode, color_at mode call_params = None) ->
  no_brightness_step call_params ->
  defaults_add_no_color data light call_params ->
  let known_brightness :=
    fill (ATTR_BRIGHTNESS (apply_default_profile data light call_params))
      (brightness light) in
  let hs :=
    hs_of (color_temperature_to_hs (color_temperature_mired_to_kelvin mireds)) in
  (RGBWW ∈ modes ->
   forall brightness, known_brightness = Some brightness ->
     let rgbww :=
       rgbww_of (color_temperature_to_rgbww mireds brightness
                   (min_mireds light) (max_mireds light)) in
     exists params,
       normalize data light call_params = Ok params
       /\ async_handle_light_on_service data light call_params
          = Ok (dispatch data light call_params params)
       /\ emulated_as (Some rgbww) params
       /\ emulated_as (Some rgbww) (filter_turn_on_params light params))
  /\ (RGBWW ∉ modes -> color_supported (Some modes) = true ->
      let emitted :=
        if mode_in HS modes then Some hs else converted_color light modes hs in
      exists params,
        normalize data light call_params = Ok params
        /\ async_handle_light_on_service data light call_params
           = Ok (dispatch data light call_params params)
        /\ emulated_as emitted params
        /\ emulated_as emitted (filter_turn_on_params light params)
        /\ emitted ≠ None)
  /\ (modes = {[ RGBWW ]} -> call_params = color_temp_request ->
      exists kwargs,
        async_handle_light_on_service data light call_params
        = Ok (async_turn_on kwargs)
        /\ ATTR_COLOR_TEMP kwargs = None
        /\ ATTR_RGBWW_COLOR kwargs
           = Some (color_temperature_to_rgbww 300 200
                     (min_mireds light) (max_mireds light))).
Proof.
  intros Hmodes Hnot Htemp Hnone Hstep Hdefaults known_brightness hs.
  set (defaults := apply_default_profile data light call_params) in *.
  assert (Hnone' : forall mode, color_at mode defaults = None).
  { intros mode. unfold defaults. rewrite color_at_defaults by done.
    apply Hnone. }
  assert (Htemp' : ATTR_COLOR_TEMP defaults = Some mireds).
  { unfold defaults. by rewrite apply_default_profile_color_temp. }
  assert (Hnorm : modes ≠ ∅ ->
            normalize data light call_params
            = (params ← emulate_color_temp light defaults;
               Ok (remove_white_value light
                     (override_white light (convert_color light params))))).
  { intros Hne. rewrite (normalize_no_step data light call_params Hstep).
    by rewrite (convert_legacy_rgbw_declared light _ modes Hmodes Hne). }
  assert (Hrgbww_case : RGBWW ∈ modes ->
            forall brightness, known_brightness = Some brightness ->
            let rgbww :=
              rgbww_of (color_temperature_to_rgbww mireds brightness
                          (min_mireds light) (max_mireds light)) in
            exists params,
              normalize data light call_params = Ok params
              /\ async_handle_light_on_service data light call_params
                 = Ok (dispatch data light call_params params)
              /\ emulated_as (Some rgbww) params
              /\ emulated_as (Some rgbww) (filter_turn_on_params light params)).
  { intros Hin brightness Hknown rgbww.
    assert (Hne : modes ≠ ∅).
    { intros ->. by apply not_elem_of_empty in Hin. }
    pose proof (only_color_put defaults rgbww Hnone') as Hput.
    assert (Hfinal : emulated_as (Some rgbww)
              (remove_white_value light
                 (override_white light
                    (convert_color light
                       (put_color rgbww (set_COLOR_TEMP None defaults)))))).
    { apply emulated_as_white_stages.
      rewrite (convert_color_supported light _ modes rgbww Hmodes Hne);
        [exact Hput|apply Hput|exact Hin]. }
    assert (Hok : normalize data light call_params
                  = Ok (remove_white_value light
                          (override_white light
                             (convert_color light
                                (put_color rgbww
                                   (set_COLOR_TEMP None defaults)))))).
    { rewrite (Hnorm Hne).
      rewrite (emulate_color_temp_declared light defaults modes mireds)
        by done.
      apply mode_in_true in Hin. rewrite Hin.
      fold known_brightness. by rewrite Hknown. }
    eexists. split; [exact Hok|].
    split; [by apply handler_dispatch|].
    split; [exact Hfinal|].
    eapply emulated_as_filter; [exact Hmodes|exact Hfinal|].
    by intros color' [= <-]. }
  split; [exact Hrgbww_case|]. split.
  - intros Hno_rgbww Hcolor emitted.
    assert (Hne : modes ≠ ∅).
    { apply color_supported_true in Hcolor as (mode & Hin & _).
      intros ->. by apply not_elem_of_empty in Hin. }
    pose proof (only_color_put defaults hs Hnone') as Hput.
    assert (Hconverted : emulated_as emitted
              (convert_color light (put_color hs (set_COLOR_TEMP None defaults)))
            /\ (forall color', emitted = Some color' -> mode_of color' ∈ modes)
            /\ emitted ≠ None).
    { unfold emitted. destruct (mode_in HS modes) eqn:Hhs.
      - apply mode_in_true in Hhs.
        rewrite (convert_color_supported light _ modes hs Hmodes Hne);
          [|apply Hput|exact Hhs].
        split; [exact Hput|]. split; [|done].
        by intros color' [= <-].
      - apply mode_in_false in Hhs.
        destruct (convert_color_colors light
                    (put_color hs (set_COLOR_TEMP None defaults)) modes hs)
          as [Hcolors Hin]; [done|done|apply Hput|exact Hhs|].
        split; [|split; [exact Hin|]].
        + split; [|exact Hcolors].
          rewrite convert_color_color_temp. apply Hput.
        + unfold converted_color.
          pose proof (hs_has_target modes Hcolor Hno_rgbww Hhs) as Htarget.
          change (mode_of hs) with HS.
          by destruct (first_supported (target_preference HS) modes). }
    destruct Hconverted as (Hconverted & Hin & Hsome).
    assert (Hok : normalize data light call_params
                  = Ok (remove_white_value light
                          (override_white light
                             (convert_color light
                                (put_color hs
                                   (set_COLOR_TEMP None defaults)))))).
    { rewrite (Hnorm Hne).
      rewrite (emulate_color_temp_declared light defaults modes mireds)
        by done.
      apply mode_in_false in Hno_rgbww. by rewrite Hno_rgbww, Hcolor. }
    pose proof (emulated_as_white_stages light _ emitted Hconverted) as Hfinal.
    eexists. split; [exact Hok|].
    split; [by apply handler_dispatch|].
    split; [exact Hfinal|].
    split; [by eapply emulated_as_filter|exact Hsome].
  - intros -> ->.
    assert (Hbrightness : ATTR_BRIGHTNESS defaults = Some 200).
    { by apply apply_default_profile_brightness. }
    destruct (Hrgbww_case (proj2 (elem_of_singleton RGBWW RGBWW) eq_refl) 200)
      as (params & Hok & Hcall & _ & [Hkw_temp Hkw_colors]).
    { unfold known_brightness. by rewrite Hbrightness. }
    destruct (before_override data light color_temp_request params Hstep Hok)
      as (before & -> & Hwhite & Hbri).
    specialize (Hbri 200 eq_refl). simpl in Hwhite.
    rewrite (override_white_none light before Hwhite) in Hcall, Hkw_temp,
      Hkw_colors.
    destruct (remove_white_value_frame light before) as [Hw Hb].
    rewrite Hcall. unfold dispatch. rewrite Hw, Hb, Hwhite, Hbri. simpl.
    eexists. split; [reflexivity|]. split; [exact Hkw_temp|].
    specialize (Hkw_colors RGBWW). simpl in Hkw_colors.
    destruct (ATTR_RGBWW_COLOR _); by simplify_eq/=.
Qed.

End ColorTemp.

(** The scenario of C5 on a light that declares [rgbww] only, with no
    profiles: the command has an [rgbww_color], the one the stand-in helper
    synthesizes from 300 mireds and brightness 200, and no [color_temp]. *)
Lemma color_temp_emulated_witness :
  exists kwargs,
    async_handle_light_on_service (color_util := sample_color_util) ∅
      (light_supporting {[ RGBWW ]}) color_temp_request
    = Ok (async_turn_on kwargs)
    /\ ATTR_COLOR_TEMP kwargs = None
    /\ ATTR_RGBWW_COLOR kwargs = Some (0, 0, 0, 115, 85).
Proof.
  destruct (color_temp_emulated (color_util := sample_color_util) ∅
              (light_supporting {[ RGBWW ]}) color_temp_request
              {[ RGBWW ]} 300)
    as (_ & _ & Hscenario).
  - reflexivity.
  - by vm_compute.
  - reflexivity.
  - intros mode. by destruct mode.
  - by split.
  - reflexivity.
  - destruct (Hscenario eq_refl eq_refl) as (kwargs & Hcall & Hct & Hrgbww).
    exists kwargs. split; [exact Hcall|]. split; [exact Hct|].
    rewrite Hrgbww. vm_compute. reflexivity.
Defined.

(** C5 as stated fails: the light declares [xy] only, so its set lacks
    [color_temp] and [rgbww] and has a color mode, and the request is
    [{"color_temp": 300}].  The claim has an [hs_color] emitted; the device
    is called with an [xy_color], the hue/saturation of the color
    temperature converted on to xy, and with no [hs_color], whatever the
    color helpers compute. *)
Lemma color_temp_not_emitted_as_hs :
  (COLOR_TEMP ∉ ({[ XY ]} : gset ColorMode))
  /\ (RGBWW ∉ ({[ XY ]} : gset ColorMode))
  /\ color_supported (Some {[ XY ]}) = true
  /\ forall color_util : ColorUtil,
       let '(h, s) :=
         color_temperature_to_hs (color_temperature_mired_to_kelvin 300) in
       async_handle_light_on_service ∅ (light_supporting {[ XY ]})
         color_temp_only_request
       = Ok (async_turn_on
               (set_XY_COLOR (Some (color_hs_to_xy h s)) no_params))
       /\ ATTR_HS_COLOR (set_XY_COLOR (Some (color_hs_to_xy h s)) no_params)
          = None.
Proof.
  split; [by vm_compute|]. split; [by vm_compute|]. split; [by vm_compute|].
  intros color_util.
  unfold async_handle_light_on_service.
  rewrite normalize_no_step by (by split).
  rewrite (convert_legacy_rgbw_declared _ _ {[ XY ]}) by (by vm_compute).
  rewrite (emulate_color_temp_declared _ _ {[ XY ]} 300)
    by (by vm_compute).
  assert (mode_in RGBWW ({[ XY ]} : gset ColorMode) = false) as ->
    by (by vm_compute).
  assert (color_supported (Some ({[ XY ]} : gset ColorMode)) = true) as ->
    by (by vm_compute).
  destruct (color_temperature_to_hs _) as [h s].
  split; [|reflexivity].
  vm_compute. reflexivity.
Qed.

(** With no brightness in the request, in a default profile or on the light
    there is nothing to synthesize an [rgbww_color] from: the call of the
    helper raises [TypeError] and the device is not called. *)
Example color_temp_without_brightness :
  forall color_util : ColorUtil,
    async_handle_light_on_service ∅ (light_supporting {[ RGBWW ]})
      color_temp_only_request
    = Raise TypeError.
Proof. intros color_util. vm_compute. reflexivity. Qed.

(** A [kelvin] of 0 is let through by the schema and raises
    [ZeroDivisionError] when the request is preprocessed. *)
Example kelvin_zero :
  forall color_util : ColorUtil,
    preprocess_data ∅ (set_KELVIN (Some 0) no_params)
    = Raise ZeroDivisionError.
Proof. intros color_util. vm_compute. reflexivity. Qed.

(** ** Loading the profiles *)

Section Loading.
Context {color_util : ColorUtil} {validation : ConfigValidation}.

Lemma Any_or_none_empty {A} (validator : string -> option A) :
  Any_or_none validator "" = Some (validator "").
Proof. unfold Any_or_none. by destruct (validator ""). Qed.

(** A row of a name and three empty cells is accepted. *)
Lemma from_csv_row_empty_cells name :
  exists profile,
    Profile.from_csv_row [name; ""; ""; ""] = Ok profile
    /\ Profile.name profile = name.
Proof.
  unfold Profile.from_csv_row, Profile.SCHEMA.
  rewrite !Any_or_none_empty. simpl. eexists. split; reflexivity.
Qed.

(** A row of one cell is refused. *)
Lemma from_csv_row_one_cell cell :
  Profile.from_csv_row [cell] = Raise vol_MultipleInvalid.
Proof. reflexivity. Qed.

(** The only exception of [from_csv_row] is [vol.MultipleInvalid]. *)
Lemma from_csv_row_raises csv_row ex :
  Profile.from_csv_row csv_row = Raise ex -> ex = vol_MultipleInvalid.
Proof.
  unfold Profile.from_csv_row, Profile.SCHEMA. intros Hraise.
  repeat (case_match; simplify_eq/=); done.
Qed.

(** Reading stops at the first refused row: what follows it is never read. *)
Lemma read_rows_stops rows bad rest profiles loaded ex :
  read_rows rows profiles = (loaded, None) ->
  Profile.from_csv_row bad = Raise ex ->
  read_rows (rows ++ bad :: rest) profiles = (loaded, Some (bad, ex)).
Proof.
  revert profiles. induction rows as [|row rows IH]; intros profiles Hrows Hbad.
  - simpl in *. rewrite Hbad. by simplify_eq.
  - simpl in *. destruct (Profile.from_csv_row row); [|done].
    by apply IH.
Qed.

Lemma read_rows_raises reader profiles loaded rec ex :
  read_rows reader profiles = (loaded, Some (rec, ex)) ->
  ex = vol_MultipleInvalid.
Proof.
  revert profiles. induction reader as [|row reader IH]; intros profiles; simpl.
  - done.
  - destruct (Profile.from_csv_row row) eqn:Hrow.
    + apply IH.
    + intros Heq. simplify_eq. by eapply from_csv_row_raises.
Qed.

(** Loading never raises. *)
Lemma load_paths_ok fs profile_paths profiles log :
  exists data log', load_paths fs profile_paths profiles log = Ok (data, log').
Proof.
  revert profiles log.
  induction profile_paths as [|path paths IH]; intros profiles log; simpl.
  - by eexists _, _.
  - destruct (fs !! path) as [inp|]; [|apply IH].
    destruct (read_rows (tail inp) profiles) as [loaded [[rec ex]|]] eqn:Hread;
      [|apply IH].
    apply read_rows_raises in Hread as ->. apply IH.
Qed.

(** C4, on the code.  Initialization is never aborted: loading returns
    profiles and a log for every content of the files.  But a refused row
    ends the reading of its file: of [file_with_bad_row] the row before the
    bad one is loaded, the bad row is logged, and the good row after it is
    not loaded; the next file is read all the same. *)
Theorem bad_row_ends_its_file :
  (forall fs builtin config,
     exists data log, _load_profile_data fs builtin config = Ok (data, log))
  /\ exists data,
       _load_profile_data files_with_bad_row builtin_dir config_dir
       = Ok (data,
             [ {| error_row := ["bad"];
                  error_path := builtin_dir +:+ "/" +:+ LIGHT_PROFILES_FILE;
                  error_exn := vol_MultipleInvalid |} ])
       /\ is_Some (data !! "first")
       /\ data !! "second" = None
       /\ is_Some (data !! "third").
Proof.
  split.
  - intros fs builtin config. apply load_paths_ok.
  - unfold _load_profile_data.
    destruct (from_csv_row_empty_cells "first") as (first & Hfirst & Hname1).
    destruct (from_csv_row_empty_cells "third") as (third & Hthird & Hname3).
    assert (Hbuiltin : files_with_bad_row
                         !! (builtin_dir +:+ "/" +:+ LIGHT_PROFILES_FILE)
                       = Some file_with_bad_row) by (by vm_compute).
    assert (Hconfig : files_with_bad_row
                        !! (config_dir +:+ "/" +:+ LIGHT_PROFILES_FILE)
                      = Some user_file) by (by vm_compute).
    cbn [load_paths]. rewrite Hbuiltin, Hconfig.
    cbn [tail file_with_bad_row user_file read_rows].
    rewrite Hfirst, from_csv_row_one_cell, Hthird.
    eexists. split; [reflexivity|]. rewrite Hname1, Hname3.
    split; [|split].
    + rewrite lookup_insert_ne by done. rewrite lookup_insert_eq. by eexists.
    + rewrite lookup_insert_ne by done. rewrite lookup_insert_ne by done.
      apply lookup_empty.
    + rewrite lookup_insert_eq. by eexists.
Qed.

End Loading.
